(** * cares-reporter: the spreadsheet validation engine

    A shallow embedding of [src/server/services/validate-data/index.js]
    (the orchestrator [validateData]) and of the validation helpers that
    live next to it (predicates, combinators, [validateFields],
    [validateDocuments], [validateSingleDocument]).

    JavaScript values are a tagged union; numbers are IEEE-754 binary64
    values ([spec_float] with precision 53 and maximal exponent 1024);
    strings are byte strings, so the model speaks about ASCII text.
    Objects are plain data: association lists from property names to
    values, looked up by name (no prototype chain, and the lodash path
    shorthands are used with plain property names only).
    Exceptions are an explicit outcome, and the two pieces of ambient state
    the helpers touch (the dropdown table and the console) are threaded
    through a small state-and-exception monad.  The modules around the
    engine ([./helpers], [ssf], [date-fns], [Date]) are the fields of the
    class [Host]; the tab catalogs are an argument of [validateData]. *)

From Stdlib Require Import ZArith List String Ascii Bool Lia.
From Stdlib Require Import DecimalString.
From Stdlib Require Import SpecFloat.
Import ListNotations.

Local Open Scope string_scope.
Local Open Scope Z_scope.

(** ** The JavaScript runtime fragment used by the validators *)

Module JS.

(** *** Numbers *)

Definition number := spec_float.
Definition prec : Z := 53.
Definition emax : Z := 1024.

Definition NaN : number := S754_nan.
Definition of_Z (z : Z) : number := binary_normalize prec emax z 0 false.
Definition num_add : number -> number -> number := SFadd prec emax.
Definition num_sub : number -> number -> number := SFsub prec emax.
Definition num_eqb : number -> number -> bool := SFeqb.
Definition num_ltb : number -> number -> bool := SFltb.
Definition num_leb : number -> number -> bool := SFleb.
Definition num_abs : number -> number := SFabs.

Definition is_nan (x : number) : bool :=
  match x with S754_nan => true | _ => false end.

Definition is_finite (x : number) : bool :=
  match x with S754_zero _ | S754_finite _ _ _ => true | _ => false end.

(** ToBoolean on a Number: [+0], [-0] and [NaN] are falsy. *)
Definition num_truthy (x : number) : bool :=
  match x with S754_zero _ | S754_nan => false | _ => true end.

(** [x || y] on numbers. *)
Definition num_or (x y : number) : number := if num_truthy x then x else y.

(** The Number value of the decimal [(-1)^neg * d * 10^e10], rounded to
    nearest, ties to even. *)
Definition of_decimal (neg : bool) (d : Z) (e10 : Z) : number :=
  match d with
  | Zpos p =>
      match e10 with
      | Zneg q => SFdiv prec emax (S754_finite neg p 0)
                        (S754_finite false (Pos.pow 10 q) 0)
      | _ => binary_normalize prec emax
               (if neg then - (d * 10 ^ e10) else d * 10 ^ e10) 0 neg
      end
  | _ => S754_zero neg
  end.

(** [m * 2^e / 10^q] as a fraction of two integers. *)
Definition scaled_fraction (m : positive) (e q : Z) : Z * Z :=
  let xn := if 0 <=? e then Zpos m * 2 ^ e else Zpos m in
  let xd := if 0 <=? e then 1 else 2 ^ (- e) in
  let tn := if 0 <=? q then 10 ^ q else 1 in
  let td := if 0 <=? q then 1 else 10 ^ (- q) in
  (xn * td, xd * tn).

(** The first [n' >= n] with [m * 2^e < 10^n']. *)
Fixpoint magnitude_from (fuel : nat) (m : positive) (e n : Z) : Z :=
  match fuel with
  | O => n
  | S fuel' =>
      let '(a, b) := scaled_fraction m e n in
      if a <? b then n else magnitude_from fuel' m e (n + 1)
  end.

(** The [n] with [10^(n-1) <= m * 2^e < 10^n]; the search starts just below
    the estimate given by the binary length. *)
Definition decimal_magnitude (m : positive) (e : Z) : Z :=
  let bits := Zpos (digits2_pos m) + e in
  magnitude_from 8 m e (((bits - 1) * 30103) / 100000 - 1).

Fixpoint strip_trailing_zeros (fuel : nat) (s q : Z) : Z * Z :=
  match fuel with
  | O => (s, q)
  | S fuel' =>
      if (s mod 10 =? 0) && negb (s =? 0)
      then strip_trailing_zeros fuel' (s / 10) (q + 1)
      else (s, q)
  end.

(** Number::toString, step 5: the decimal [s * 10^q] with as few digits as
    possible that converts back to [m * 2^e].  For k = 1, 2, ... the two
    k-digit neighbours of the value are tried; when both convert back the
    closer one is taken (the even one on a tie). *)
Fixpoint shortest_from (fuel : nat) (m : positive) (e n k : Z) : Z * Z :=
  let q := n - k in
  let '(a, b) := scaled_fraction m e q in
  let lo := a / b in
  let r := a mod b in
  let x := S754_finite false m e in
  let ok_lo := num_eqb (of_decimal false lo q) x in
  let ok_hi := num_eqb (of_decimal false (lo + 1) q) x in
  let pick :=
    if ok_lo && ok_hi then
      match (2 * r) ?= b with
      | Lt => Some lo
      | Gt => Some (lo + 1)
      | Eq => Some (if Z.even lo then lo else lo + 1)
      end
    else if ok_lo then Some lo
    else if ok_hi then Some (lo + 1)
    else None in
  match pick with
  | Some s => (s, q)
  | None =>
      match fuel with
      | O => (lo, q)
      | S fuel' => shortest_from fuel' m e n (k + 1)
      end
  end.

Definition shortest_decimal (m : positive) (e : Z) : Z * Z :=
  let '(s0, q0) := shortest_from 20 m e (decimal_magnitude m e) 1 in
  strip_trailing_zeros 20 s0 q0.

(** *** Strings *)

Definition digits_of (z : Z) : string :=
  NilZero.string_of_uint (N.to_uint (Z.to_N z)).

Fixpoint zeros (n : nat) : string :=
  match n with
  | O => ""
  | S n' => String "0" (zeros n')
  end.

Fixpoint drop (n : nat) (s : string) : string :=
  match n, s with
  | S n', String _ s' => drop n' s'
  | _, _ => s
  end.

Definition slen (s : string) : Z := Z.of_nat (String.length s).

(** Number::toString for a finite positive value, steps 5 to 10. *)
Definition positive_to_string (m : positive) (e : Z) : string :=
  let '(s, q) := shortest_decimal m e in
  let ds := digits_of s in
  let k := slen ds in
  let n := q + k in
  if (k <=? n) && (n <=? 21) then
    ds ++ zeros (Z.to_nat (n - k))
  else if (0 <? n) && (n <=? 21) then
    substring 0 (Z.to_nat n) ds ++ "." ++ drop (Z.to_nat n) ds
  else if (-6 <? n) && (n <=? 0) then
    "0." ++ zeros (Z.to_nat (- n)) ++ ds
  else
    let ex := n - 1 in
    let mant := if k =? 1 then ds
                else substring 0 1 ds ++ "." ++ drop 1 ds in
    mant ++ "e" ++ (if ex <? 0 then "-" else "+") ++ digits_of (Z.abs ex).

Definition numberToString (x : number) : string :=
  match x with
  | S754_nan => "NaN"
  | S754_zero _ => "0"
  | S754_infinity s => if s then "-Infinity" else "Infinity"
  | S754_finite s m e => (if s then "-" else "") ++ positive_to_string m e
  end.

Definition code (c : ascii) : Z := Z.of_N (N_of_ascii c).

(** StrWhiteSpaceChar, restricted to ASCII. *)
Definition is_whitespace (c : ascii) : bool :=
  let n := code c in ((9 <=? n) && (n <=? 13)) || (n =? 32).

Fixpoint trim_start (s : string) : string :=
  match s with
  | String c s' => if is_whitespace c then trim_start s' else s
  | EmptyString => s
  end.

Fixpoint trim_end (s : string) : string :=
  match s with
  | String c s' =>
      match trim_end s' with
      | EmptyString => if is_whitespace c then "" else String c ""
      | t => String c t
      end
  | EmptyString => ""
  end.

Definition trim (s : string) : string := trim_end (trim_start s).

Definition digit_val (radix : Z) (c : ascii) : option Z :=
  let n := code c in
  let v := if (48 <=? n) && (n <=? 57) then n - 48
           else if (97 <=? n) && (n <=? 102) then n - 87
           else if (65 <=? n) && (n <=? 70) then n - 55
           else radix in
  if v <? radix then Some v else None.

(** A maximal run of decimal digits: value accumulated onto [acc], number
    of digits read, and the rest of the input. *)
Fixpoint read_digits (s : string) (acc cnt : Z) : Z * Z * string :=
  match s with
  | String c s' =>
      match digit_val 10 c with
      | Some d => read_digits s' (acc * 10 + d) (cnt + 1)
      | None => (acc, cnt, s)
      end
  | EmptyString => (acc, cnt, s)
  end.

Definition read_sign (s : string) : bool * string :=
  match s with
  | String "-" t => (true, t)
  | String "+" t => (false, t)
  | _ => (false, s)
  end.

(** ExponentPart, when present and well formed; nothing is consumed
    otherwise. *)
Definition read_exponent (s : string) : Z * string :=
  match s with
  | String c s1 =>
      if (code c =? 101) || (code c =? 69) then
        let '(neg, s2) := read_sign s1 in
        let '(v, cnt, rest) := read_digits s2 0 0 in
        if cnt =? 0 then (0, s) else ((if neg then - v else v), rest)
      else (0, s)
  | EmptyString => (0, s)
  end.

(** The longest prefix that is a StrUnsignedDecimalLiteral other than
    Infinity: digits [d] and decimal exponent. *)
Definition read_unsigned_decimal (s : string) : option (Z * Z * string) :=
  let '(i, ci, s1) := read_digits s 0 0 in
  match s1 with
  | String "." s2 =>
      let '(f, cf, s3) := read_digits s2 i 0 in
      if (ci =? 0) && (cf =? 0) then None
      else let '(ex, rest) := read_exponent s3 in Some (f, ex - cf, rest)
  | _ =>
      if ci =? 0 then None
      else let '(ex, rest) := read_exponent s1 in Some (i, ex, rest)
  end.

(** The longest prefix that is a StrDecimalLiteral. *)
Definition read_decimal_literal (s : string) : option (number * string) :=
  let '(neg, s1) := read_sign s in
  if prefix "Infinity" s1 then Some (S754_infinity neg, drop 8 s1)
  else match read_unsigned_decimal s1 with
       | Some (d, e10, rest) => Some (of_decimal neg d e10, rest)
       | None => None
       end.

(** All of [s] as digits in [radix]; [None] when [s] is empty or holds
    another character. *)
Fixpoint read_radix (radix : Z) (s : string) (acc : option Z) : option Z :=
  match s with
  | EmptyString => acc
  | String c s' =>
      match digit_val radix c with
      | Some d =>
          read_radix radix s'
            (Some (match acc with Some a => a * radix + d | None => d end))
      | None => None
      end
  end.

(** NonDecimalIntegerLiteral: [0x], [0o], [0b] in either case. *)
Definition read_non_decimal (s : string) : option Z :=
  match s with
  | String "0" (String c s') =>
      let n := code c in
      if (n =? 120) || (n =? 88) then read_radix 16 s' None
      else if (n =? 111) || (n =? 79) then read_radix 8 s' None
      else if (n =? 98) || (n =? 66) then read_radix 2 s' None
      else None
  | _ => None
  end.

(** StringToNumber. *)
Definition stringToNumber (s : string) : number :=
  let t := trim s in
  match t with
  | EmptyString => S754_zero false
  | _ =>
      match read_non_decimal t with
      | Some z => of_Z z
      | None =>
          match read_decimal_literal t with
          | Some (x, EmptyString) => x
          | _ => NaN
          end
      end
  end.

(** The global [parseFloat], on a string. *)
Definition parseFloatString (s : string) : number :=
  match read_decimal_literal (trim_start s) with
  | Some (x, _) => x
  | None => NaN
  end.

Definition lower (c : ascii) : ascii :=
  let n := code c in
  if (65 <=? n) && (n <=? 90) then ascii_of_N (Z.to_N (n + 32)) else c.

Fixpoint toLowerCase (s : string) : string :=
  match s with
  | String c s' => String (lower c) (toLowerCase s')
  | EmptyString => ""
  end.

(** [s.split(sep)] for a one-character separator. *)
Fixpoint split (sep : ascii) (s : string) : list string :=
  match s with
  | EmptyString => [""]
  | String c s' =>
      if Ascii.eqb c sep then "" :: split sep s'
      else match split sep s' with
           | p :: ps => String c p :: ps
           | [] => [String c ""]
           end
  end.

(** *** Values *)

Inductive JSValue : Type :=
  | VUndefined
  | VNull
  | VBool (b : bool)
  | VNum (x : number)
  | VStr (s : string).

Definition ToBoolean (v : JSValue) : bool :=
  match v with
  | VUndefined | VNull => false
  | VBool b => b
  | VNum x => num_truthy x
  | VStr s => negb (s =? "")%string
  end.

Definition ToNumber (v : JSValue) : number :=
  match v with
  | VUndefined => NaN
  | VNull => S754_zero false
  | VBool b => if b then of_Z 1 else S754_zero false
  | VNum x => x
  | VStr s => stringToNumber s
  end.

Definition ToString (v : JSValue) : string :=
  match v with
  | VUndefined => "undefined"
  | VNull => "null"
  | VBool b => if b then "true" else "false"
  | VNum x => numberToString x
  | VStr s => s
  end.

(** [a || b] *)
Definition or_else (a b : JSValue) : JSValue :=
  if ToBoolean a then a else b.

Definition parseFloat (v : JSValue) : number := parseFloatString (ToString v).

(** [Math.round]: the integer nearest to [x], halves towards +infinity; a
    zero result keeps the sign of [x]. *)
Definition Math_round (x : number) : number :=
  match x with
  | S754_finite s m e =>
      if 0 <=? e then x
      else
        let den := 2 ^ (- e) in
        let num := if s then Zneg m else Zpos m in
        let r := (2 * num + den) / (2 * den) in
        if r =? 0 then S754_zero s else of_Z r
  | _ => x
  end.

(** [a > b] when [b] is a Number: both sides go through ToNumber. *)
Definition gt_number (a : JSValue) (b : number) : bool :=
  num_ltb b (ToNumber a).

(** [a == s] for a string literal [s] that is not numeric: only the equal
    string compares equal. *)
Definition loose_eq_string (a : JSValue) (s : string) : bool :=
  match a with
  | VStr t => (t =? s)%string
  | _ => false
  end.

End JS.

(** ** lodash *)

Module Lodash.
Import JS.

Definition isNumber (v : JSValue) : bool :=
  match v with VNum _ => true | _ => false end.

(** [_.isEmpty] on a primitive: only a non-empty string is not empty. *)
Definition isEmpty (v : JSValue) : bool :=
  match v with
  | VStr s => (s =? "")%string
  | _ => true
  end.

Definition isNaN (v : JSValue) : bool :=
  match v with VNum x => is_nan x | _ => false end.

(** lodash's own [toString], on a number: [-0] keeps its sign. *)
Definition toString (x : number) : string :=
  match x with
  | S754_zero true => "-0"
  | _ => numberToString x
  end.

Definition nth_piece (n : nat) (ps : list string) : JSValue :=
  match nth_error ps n with
  | Some p => VStr p
  | None => VUndefined
  end.

(** One half of [createRound]: [(toString(x) + 'e').split('e')], then the
    string [pair[0] + 'e' + (+pair[1] + shift)] converted to a number. *)
Definition shift_exponent (x : number) (shift : number) : number :=
  let pair := split "e" (toString x ++ "e") in
  ToNumber (VStr (ToString (nth_piece 0 pair) ++ "e" ++
    numberToString (num_add (ToNumber (nth_piece 1 pair)) shift))).

(** [_.round(v, precision)] for a non-zero precision given as the integer
    [p]. *)
Definition round (v : JSValue) (p : Z) : number :=
  let x := ToNumber v in
  if is_finite x then
    let value := Math_round (shift_exponent x (of_Z p)) in
    shift_exponent value (of_Z (- p))
  else Math_round x.

Definition take {A} (xs : list A) (n : nat) : list A := firstn n xs.

(** The values of [xs] not in [seen], each at its first occurrence. *)
Fixpoint uniq_from (seen xs : list string) : list string :=
  match xs with
  | [] => []
  | x :: xs' =>
      if existsb (String.eqb x) seen then uniq_from seen xs'
      else x :: uniq_from (x :: seen) xs'
  end.

(** [_.intersection(a, b)]: the values of [a] that occur in [b], in the
    order of [a] and without repetition. *)
Definition intersection (a b : list string) : list string :=
  uniq_from [] (filter (fun x => existsb (String.eqb x) b) a).

Definition includes (xs : list string) (x : string) : bool :=
  existsb (String.eqb x) xs.

End Lodash.

Import JS.

(** ** Effects: exceptions, the dropdown table and the console *)

Inductive JSError : Type :=
  | TypeError (msg : string)
  | RangeError (msg : string).

Inductive Outcome (A : Type) : Type :=
  | Ok (a : A)
  | Throw (e : JSError).

Arguments Ok {A} a.
Arguments Throw {A} e.

(** The reference table served by [getDropdownValues]: list name to the
    lower-cased members of the list. *)
Definition Dropdowns := list (string * list string).

(** What a run can see and touch besides its arguments: the dropdown table
    (absent until the templates are initialised), the VERBOSE switch read
    when the module is loaded, and the lines written to the console. *)
Record World : Type := mkWorld {
  dropdowns : option Dropdowns;
  verbose : bool;
  console : list string
}.

Definition M (A : Type) : Type := World -> Outcome A * World.

Definition ret {A} (a : A) : M A := fun w => (Ok a, w).

Definition bind {A B} (c : M A) (k : A -> M B) : M B :=
  fun w =>
    match c w with
    | (Ok a, w') => k a w'
    | (Throw e, w') => (Throw e, w')
    end.

Definition throw {A} (e : JSError) : M A := fun w => (Throw e, w).

Definition lift {A} (o : Outcome A) : M A := fun w => (o, w).

Notation "x <- c ;; k" := (bind c (fun x => k))
  (at level 100, c at next level, right associativity).
Notation "c ;;; k" := (bind c (fun _ => k))
  (at level 100, right associativity).

(** Modelled from the spec: [getDropdownValues] of [../get-template], a
    module this development does not embed; it hands out the externally
    loaded reference table, or a falsy value while the table is not
    initialised. *)
Definition getDropdownValues : M (option Dropdowns) :=
  fun w => (Ok (dropdowns w), w).

Definition console_log (line : string) : M unit :=
  fun w => (Ok tt, mkWorld (dropdowns w) (verbose w) (console w ++ [line])%list).

(** [let log = ()=>{}; if (process.env.VERBOSE) log = console.dir] *)
Definition log (line : string) : M unit :=
  fun w => if verbose w then console_log line w else (Ok tt, w).

Fixpoint flatMapM {A B} (f : A -> M (list B)) (xs : list A) : M (list B) :=
  match xs with
  | [] => ret []
  | x :: xs' =>
      ys <- f x ;;
      zs <- flatMapM f xs' ;;
      ret (ys ++ zs)%list
  end.

(** ** Data model *)

(** A plain object: property name to value, first binding wins. *)
Definition Obj := list (string * JSValue).

Fixpoint get (o : Obj) (k : string) : JSValue :=
  match o with
  | [] => VUndefined
  | (k', v) :: o' => if (k =? k')%string then v else get o' k
  end.

Fixpoint lookup {A} (k : string) (o : list (string * A)) : option A :=
  match o with
  | [] => None
  | (k', v) :: o' => if (k =? k')%string then Some v else lookup k o'
  end.

Record Document : Type := mkDocument {
  type : string;
  content : Obj;
  sourceRow : JSValue
}.

(** The result of [_.groupBy(documents, "type")]. *)
Definition Grouped := list (string * list Document).

(** Modelled from the spec: [ValidationItem] of [../../lib/validation-log],
    a module this development does not embed; a finding carries a message,
    a tab and an optional row. *)
Record ValidationItem : Type := mkValidationItem {
  message : string;
  tab : string;
  row : option JSValue
}.

Module Options.
Record t : Type := mk {
  tags : option (list string);
  isDateValue : bool
}.
End Options.

(** The reporting-period bounds held by the context, as formatted dates. *)
Record ReportingPeriod : Type := mkReportingPeriod {
  startDate : string;
  endDate : string;
  periodOfPerformanceEndDate : string
}.

(** The row of the reporting periods table handed to [validateData]. *)
Record ReportingPeriodRow : Type := mkReportingPeriodRow {
  start_date : JSValue;
  end_date : JSValue;
  period_of_performance_end_date : JSValue;
  validation_rule_tags : option (list string)
}.

(** The collaborators outside the engine: the subrecipient helpers of
    [./helpers], the [ssf] formatter, [Date] parsing and [date-fns]. *)
Class Host : Type := mkHost {
  SubrecipientsHash : Type;
  getSubrecipientsHash : option (list Document) -> SubrecipientsHash;
  (** [_.has(subrecipientsHash, val)] *)
  hasSubrecipient : SubrecipientsHash -> JSValue -> bool;
  subrecipientKey : Obj -> JSValue;
  (** [ssf.format(fmt, val)] *)
  ssf_format : string -> JSValue -> string;
  (** [new Date(val).getTime()] *)
  date_getTime : JSValue -> number;
  (** [format(date, fmt)] of date-fns, which throws on an invalid date *)
  date_fns_format : JSValue -> string -> Outcome string
}.

(** [validateContext]; every entry is optional because [validateFields]
    defaults the context to the empty object. *)
Record ValidateContext `{Host} : Type := mkValidateContext {
  fileParts : option (list (string * string));
  firstReportingPeriodStartDate : option string;
  reportingPeriod : option ReportingPeriod;
  subrecipientsHash : option SubrecipientsHash;
  tags : option (list string);
  periodSummaries : option (list Obj)
}.

Arguments mkValidateContext {_} _ _ _ _ _ _.

Definition emptyContext `{Host} : ValidateContext :=
  mkValidateContext None None None None None None.

Definition Validator `{Host} : Type :=
  JSValue -> Obj -> ValidateContext -> M bool.

(** A rule is the array [[key, validator, message, options]]. *)
Definition Rule `{Host} : Type :=
  (string * Validator * option string * option Options.t)%type.

Definition TabValidator `{Host} : Type :=
  Grouped -> ValidateContext -> M (list ValidationItem).

(** ** The predicate library *)

Section Predicates.
Context `{Host}.

Definition undefined_property {A} (name : string) : M A :=
  throw (TypeError ("Cannot read property '" ++ name ++ "' of undefined")).

Definition dateIsInPeriodOfPerformance : Validator :=
  fun val content ctx =>
    let dt := ssf_format "yyyy-MM-dd" val in
    match reportingPeriod ctx with
    | Some rp => ret (String.leb dt (periodOfPerformanceEndDate rp))
    | None => undefined_property "periodOfPerformanceEndDate"
    end.

Definition dateIsInReportingPeriod : Validator :=
  fun val content ctx =>
    let dt := ssf_format "yyyy-MM-dd" val in
    match reportingPeriod ctx with
    | Some rp =>
        ret (String.leb (startDate rp) dt && String.leb dt (endDate rp))
    | None => undefined_property "startDate"
    end.

Definition dateIsOnOrBefore (key : string) : Validator :=
  fun val content ctx =>
    ret (num_leb (date_getTime val) (date_getTime (get content key))).

Definition dateIsOnOrAfter (key : string) : Validator :=
  fun val content ctx =>
    ret (num_leb (date_getTime (get content key)) (date_getTime val)).

Definition hasSubrecipientKey : Validator :=
  fun val content ctx => ret (ToBoolean (subrecipientKey content)).

Definition isNotBlank : Validator :=
  fun val content ctx =>
    ret (Lodash.isNumber val || negb (Lodash.isEmpty val)).

Definition isNumber : Validator :=
  fun val content ctx => ret (Lodash.isNumber val).

Definition isNumberOrBlank : Validator :=
  fun val content ctx => ret (Lodash.isEmpty val || Lodash.isNumber val).

Definition isPositiveNumber : Validator :=
  fun val content ctx => ret (Lodash.isNumber val && gt_number val (of_Z 0)).

Definition isAtLeast50K : Validator :=
  fun val content ctx =>
    ret (Lodash.isNumber val && num_leb (of_Z 50000) (ToNumber val)).

Definition isEqual (column : string) : Validator :=
  fun val content ctx =>
    let f1 := num_or (parseFloat val) (of_Z 0) in
    let f2 := num_or (parseFloat (get content column)) (of_Z 0) in
    ret (num_ltb (num_abs (num_sub f1 f2)) (of_decimal false 1 (-2))).

(** The reducer of [isSum]: a falsy column name leaves the accumulator
    alone, any other adds [parseFloat(content[c]) || 0.0]. *)
Definition isSum_step (content : Obj) (acc : number) (c : JSValue) : number :=
  if negb (ToBoolean c) then acc
  else
    let f := num_or (parseFloat (get content (ToString c))) (of_Z 0) in
    num_add acc f.

Definition isSum (columns : list JSValue) : Validator :=
  fun val content ctx =>
    let sum := fold_left (isSum_step content) columns (of_Z 0) in
    let val := num_or (ToNumber val) (of_Z 0) in
    let val := Lodash.round (VNum val) 2 in
    let sum := Lodash.round (VNum sum) 2 in
    ret (num_eqb val sum).

(** The reducer of [cumulativeAmountIsEqual]:
    [(acc, s) => acc + Number(s) || 0.0], where [+] binds tighter than
    [||]. *)
Definition cumulative_step (acc : number) (s : JSValue) : number :=
  num_or (num_add acc (ToNumber s)) (of_Z 0).

(** [key] is a plain property name (no [.] and no [[]), so that the lodash
    shorthand [.map(`current_${key}`)] reads that very property. *)
Definition cumulativeAmountIsEqual (key : string)
    (filterPredicate : Obj -> bool) : Validator :=
  fun val content ctx =>
    let currentPeriodAmount := num_or (ToNumber (get content key)) (of_Z 0) in
    let summaries :=
      match periodSummaries ctx with Some ps => ps | None => [] end in
    let sum :=
      fold_left cumulative_step
        (map (fun s => get s ("current_" ++ key)) (filter filterPredicate summaries))
        currentPeriodAmount in
    ret (num_eqb (Lodash.round val 2) (Lodash.round (VNum sum) 2)).

Definition isValidDate : Validator :=
  fun val content ctx => ret (negb (Lodash.isNaN (VNum (date_getTime val)))).

Definition isValidSubrecipient : Validator :=
  fun val content ctx =>
    match subrecipientsHash ctx with
    | Some h => ret (hasSubrecipient h val)
    | None => ret false
    end.

Definition isUnitedStates (value : JSValue) : bool :=
  loose_eq_string value "usa" || loose_eq_string value "united states".

(** [str.replace(/^0*/, "")] *)
Fixpoint strip_leading_zeros (s : string) : string :=
  match s with
  | String "0" s' => strip_leading_zeros s'
  | _ => s
  end.

Definition matchesFilePart (key : string) : Validator :=
  fun val content ctx =>
    match fileParts ctx with
    | None => undefined_property key
    | Some parts =>
        match lookup key parts with
        | None => undefined_property "replace"
        | Some part =>
            let fileValue := strip_leading_zeros part in
            let documentValue :=
              strip_leading_zeros (ToString (or_else val (VStr ""))) in
            ret (documentValue =? fileValue)%string
        end
    end.

Definition numberIsLessThanOrEqual (key : string) : Validator :=
  fun val content ctx =>
    let other := get content key in
    ret (Lodash.isNumber val && Lodash.isNumber other &&
         num_leb (ToNumber val) (ToNumber other)).

Definition numberIsGreaterThanOrEqual (key : string) : Validator :=
  fun val content ctx =>
    let other := get content key in
    ret (Lodash.isNumber val && Lodash.isNumber other &&
         num_leb (ToNumber other) (ToNumber val)).

(** [val.toLowerCase()]: only a string has the method. *)
Definition callToLowerCase (val : JSValue) : M string :=
  match val with
  | VStr s => ret (toLowerCase s)
  | VNum _ | VBool _ => throw (TypeError "val.toLowerCase is not a function")
  | VUndefined | VNull => undefined_property "toLowerCase"
  end.

Definition dropdownIncludes (key : string) (val : JSValue) : M bool :=
  allDropdowns <- getDropdownValues ;;
  match allDropdowns with
  | None =>
      console_log ("DROPDOWN VALUES NOT INITIALIZED!! (" ++ key ++ ")") ;;;
      ret false
  | Some all =>
      let dropdownValues :=
        match lookup key all with Some vs => vs | None => [] end in
      lowered <- callToLowerCase val ;;
      let rv := Lodash.includes dropdownValues lowered in
      log (key ++ ":" ++ ToString val ++ " is " ++
           (if rv then "present" else "missing")) ;;;
      ret rv
  end.

Definition isValidState : Validator :=
  fun val content ctx =>
    log ("isValidState(" ++ ToString val ++ ")") ;;;
    dropdownIncludes "state code" val.

(** [n] decimal digits at the head of [s]; what follows them. *)
Fixpoint read_n_digits (n : nat) (s : string) : option string :=
  match n with
  | O => Some s
  | S n' =>
      match s with
      | String c s' =>
          match digit_val 10 c with
          | Some _ => read_n_digits n' s'
          | None => None
          end
      | EmptyString => None
      end
  end.

(** [/^\d{5}(-\d{4})?$/.test(`${val}`)] *)
Definition isValidZip : Validator :=
  fun val content ctx =>
    ret match read_n_digits 5 (ToString val) with
        | Some EmptyString => true
        | Some (String "-" rest) =>
            match read_n_digits 4 rest with
            | Some EmptyString => true
            | _ => false
            end
        | _ => false
        end.

(** ** Conditional combinators *)

Definition whenBlank (key : string) (validator : Validator) : Validator :=
  fun val content ctx =>
    if ToBoolean (get content key) then ret true
    else validator val content ctx.

Definition whenNotBlank (key : string) (validator : Validator) : Validator :=
  fun val content ctx =>
    if negb (ToBoolean (get content key)) then ret true
    else validator val content ctx.

Definition whenUS (key : string) (validator : Validator) : Validator :=
  fun val content ctx =>
    if negb (isUnitedStates (get content key)) then ret true
    else validator val content ctx.

Definition whenGreaterThanZero (key : string) (validator : Validator)
    : Validator :=
  fun val content ctx =>
    if gt_number (get content key) (of_Z 0) then validator val content ctx
    else ret true.

End Predicates.

(** ** The field validator executor *)

Section Executor.
Context `{Host}.

(** The part of [s] before and after the first occurrence of [pat]. *)
Fixpoint split_at_first (pat s : string) {struct s} : option (string * string) :=
  if prefix pat s then Some ("", drop (String.length pat) s)
  else
    match s with
    | String c s' =>
        match split_at_first pat s' with
        | Some (before, after) => Some (String c before, after)
        | None => None
        end
    | EmptyString => None
    end.

(** GetSubstitution for a string pattern (no captures): [$$], [$&],
    [$`] and [$'] are expanded in the replacement text. *)
Fixpoint getSubstitution (matched before after repl : string) : string :=
  match repl with
  | String "$" (String c r as t) =>
      if (code c =? 36) then String "$" (getSubstitution matched before after r)
      else if (code c =? 38) then matched ++ getSubstitution matched before after r
      else if (code c =? 96) then before ++ getSubstitution matched before after r
      else if (code c =? 39) then after ++ getSubstitution matched before after r
      else String "$" (getSubstitution matched before after t)
  | String c r => String c (getSubstitution matched before after r)
  | EmptyString => ""
  end.

(** [s.replace(pat, repl)] with a string pattern: the first occurrence
    only. *)
Definition replace (s pat repl : string) : string :=
  match split_at_first pat s with
  | Some (before, after) =>
      before ++ getSubstitution pat before after repl ++ after
  | None => s
  end.

Definition addValueToMessage (message : string) (value : JSValue) : string :=
  replace message "{}" (ToString (or_else value (VStr ""))).

Definition messageValue (val : JSValue) (options : option Options.t)
    : JSValue :=
  match options with
  | Some o =>
      if Options.isDateValue o && ToBoolean val then
        let dt := date_getTime val in
        if Lodash.isNaN (VNum dt) then val
        else VStr (ssf_format "MM/dd/yyyy" val)
      else val
  | None => val
  end.

Definition includeValidator (options : option Options.t)
    (context : ValidateContext) : bool :=
  let tags' := match options with Some o => Options.tags o | None => None end in
  match tags' with
  | None => true
  | Some ruleTags =>
      match tags context with
      | None => false
      | Some contextTags =>
          negb (match Lodash.intersection ruleTags contextTags with
                | [] => true
                | _ => false
                end)
      end
  end.

(** The double quote character. *)
Definition dquote : string := String (ascii_of_N 34) EmptyString.

Definition defaultTemplate (key : string) : string :=
  "Empty or invalid entry for " ++ key ++ ": " ++ dquote ++ "{}" ++ dquote.

(** [message || `Empty or invalid entry for ${key}: "{}"`] *)
Definition messageTemplate (key : string) (message : option string) : string :=
  match message with
  | Some m => if (m =? "")%string then defaultTemplate key else m
  | None => defaultTemplate key
  end.

(** The body of the [forEach] callback of [validateFields], with the array
    [valog] passed along. *)
Definition validateField (rule : Rule) (content : Obj) (tab : string)
    (row : JSValue) (context : ValidateContext)
    (valog : list ValidationItem) : M (list ValidationItem) :=
  let '(key, validator, message, options) := rule in
  if includeValidator options context then
    let val := or_else (get content key) (VStr "") in
    ok <- validator val content context ;;
    if negb ok then
      ret (valog ++
           [mkValidationItem
              (addValueToMessage (messageTemplate key message)
                                 (messageValue val options))
              tab (Some row)])%list
    else ret valog
  else ret valog.

Fixpoint forEachField (requiredFields : list Rule) (content : Obj)
    (tab : string) (row : JSValue) (context : ValidateContext)
    (valog : list ValidationItem) : M (list ValidationItem) :=
  match requiredFields with
  | [] => ret valog
  | rule :: rest =>
      valog' <- validateField rule content tab row context valog ;;
      forEachField rest content tab row context valog'
  end.

Definition validateFields (requiredFields : list Rule) (content : Obj)
    (tab : string) (row : JSValue) (context : ValidateContext)
    : M (list ValidationItem) :=
  forEachField requiredFields content tab row context [].

(** ** Document-set validators *)

Definition validateDocuments (tab : string) (validations : list Rule)
    : TabValidator :=
  fun groupedDocuments validateContext =>
    let documents :=
      match lookup tab groupedDocuments with Some ds => ds | None => [] end in
    flatMapM
      (fun d => validateFields validations (content d) tab (sourceRow d)
                  validateContext)
      documents.

Definition validateSingleDocument (tab : string) (validations : list Rule)
    (message : string) : TabValidator :=
  fun groupedDocuments validateContext =>
    match lookup tab groupedDocuments with
    | Some [d] =>
        let row := VNum (of_Z 2) in
        results <- validateFields validations (content d) tab row
                     validateContext ;;
        ret ([] ++ results)%list
    | _ => ret [mkValidationItem message tab None]
    end.

(** ** The orchestrator *)

Fixpoint groupBy_push (k : string) (d : Document) (g : Grouped) : Grouped :=
  match g with
  | [] => [(k, [d])]
  | (k', ds) :: g' =>
      if (k =? k')%string then (k', (ds ++ [d])%list) :: g'
      else (k', ds) :: groupBy_push k d g'
  end.

(** [_.groupBy(documents, "type")] *)
Definition groupBy (documents : list Document) : Grouped :=
  fold_left (fun g d => groupBy_push (type d) d g) documents [].

Definition buildContext (groupedDocuments : Grouped)
    (fileParts : option (list (string * string)))
    (reportingPeriod : ReportingPeriodRow)
    (periodSummaries : option (list Obj)) : M ValidateContext :=
  let subrecipientsHash :=
    getSubrecipientsHash (lookup "subrecipient" groupedDocuments) in
  startDate <- lift (date_fns_format (start_date reportingPeriod) "yyyy-MM-dd") ;;
  endDate <- lift (date_fns_format (end_date reportingPeriod) "yyyy-MM-dd") ;;
  periodOfPerformanceEndDate <-
    lift (date_fns_format (period_of_performance_end_date reportingPeriod)
            "yyyy-MM-dd") ;;
  ret (mkValidateContext
         fileParts
         (Some "2020-03-01")
         (Some (mkReportingPeriod startDate endDate periodOfPerformanceEndDate))
         (Some subrecipientsHash)
         (validation_rule_tags reportingPeriod)
         periodSummaries).

(** [tabValidators] is the module-level list of the eight tab catalogs
    ([./certification] ... [./direct]); the catalogs are configuration
    outside the engine and are taken as a parameter. *)
Definition validateData (tabValidators : list TabValidator)
    (documents : list Document)
    (fileParts : option (list (string * string)))
    (reportingPeriod : ReportingPeriodRow)
    (periodSummaries : option (list Obj)) : M (list ValidationItem) :=
  let groupedDocuments := groupBy documents in
  validateContext <-
    buildContext groupedDocuments fileParts reportingPeriod periodSummaries ;;
  flatMapM
    (fun tabValidator =>
       findings <- tabValidator groupedDocuments validateContext ;;
       ret (Lodash.take findings 100))
    tabValidators.

End Executor.

(** ** Notions used to state the properties *)

Section Notions.
Context `{Host}.

(** The finding a failed rule reports. *)
Definition ruleFinding (key : string) (message : option string)
    (options : option Options.t) (val : JSValue) (tab : string)
    (row : JSValue) : ValidationItem :=
  mkValidationItem
    (addValueToMessage (messageTemplate key message) (messageValue val options))
    tab (Some row).

(** The tags a rule declares, if any. *)
Definition declaredTags (options : option Options.t) : option (list string) :=
  match options with
  | Some o => Options.tags o
  | None => None
  end.

(** A rule applies when it declares no tags, or when one of its tags is
    among the active tags of the context. *)
Definition ruleApplies (options : option Options.t)
    (context : ValidateContext) : Prop :=
  match declaredTags options with
  | None => True
  | Some ruleTags =>
      exists t, In t ruleTags /\
                match tags context with
                | Some contextTags => In t contextTags
                | None => False
                end
  end.

(** The records of a tab, none when the tab has no group. *)
Definition recordsOf (tab : string) (groupedDocuments : Grouped)
    : list Document :=
  match lookup tab groupedDocuments with
  | Some ds => ds
  | None => []
  end.

(** The tab validators run one after the other from world [w], each
    returning normally; [rs] are their finding lists, in order. *)
Inductive runsTabs (g : Grouped) (c : ValidateContext)
    : list TabValidator -> World -> list (list ValidationItem) -> World -> Prop :=
  | runs_nil : forall w, runsTabs g c [] w [] w
  | runs_cons : forall tv tvs w w' w'' r rs,
      tv g c w = (Ok r, w') ->
      runsTabs g c tvs w' rs w'' ->
      runsTabs g c (tv :: tvs) w (r :: rs) w''.

(** Two worlds hold the same reference-table snapshot. *)
Definition sameSnapshot (w1 w2 : World) : Prop :=
  dropdowns w1 = dropdowns w2.

(** A computation whose outcome depends on the world through the snapshot
    only, and which leaves the snapshot as it found it. *)
Definition snapshotStable {A} (c : M A) : Prop :=
  forall w1 w2, sameSnapshot w1 w2 ->
    fst (c w1) = fst (c w2) /\ sameSnapshot (snd (c w1)) w1.

(** Equal numbers, or two zeros of either sign. *)
Definition sameUpToZeroSign (x y : number) : Prop :=
  x = y \/ (exists s t, x = S754_zero s /\ y = S754_zero t).

(** The sum as the specification words it: the amounts added one after the
    other, with no fallback. *)
Definition plainSum (start : number) (values : list JSValue) : number :=
  fold_left (fun acc s => num_add acc (ToNumber s)) values start.

(** No running total of the plain sum is NaN. *)
Fixpoint neverNaN (acc : number) (values : list JSValue) : bool :=
  match values with
  | [] => true
  | s :: rest =>
      negb (is_nan (num_add acc (ToNumber s))) &&
      neverNaN (num_add acc (ToNumber s)) rest
  end.



(** The text does not begin with the digit 0. *)
Definition noLeadingZero (s : string) : bool :=
  match s with
  | String c _ => negb (Ascii.eqb c "0")
  | EmptyString => true
  end.

Definition stableValidator (validator : Validator) : Prop :=
  forall val content context, snapshotStable (validator val content context).

Definition stableRule (rule : Rule) : Prop :=
  let '(_, validator, _, _) := rule in stableValidator validator.

Definition stableTab (tabValidator : TabValidator) : Prop :=
  forall groupedDocuments validateContext,
    snapshotStable (tabValidator groupedDocuments validateContext).

End Notions.

(** A host for closed examples: dates arrive as formatted text, which the
    formatters hand back, and no value parses as a date. *)
Definition plainHost : Host := {|
  SubrecipientsHash := list string;
  getSubrecipientsHash := fun _ => [];
  hasSubrecipient := fun h v => existsb (String.eqb (ToString v)) h;
  subrecipientKey := fun c => get c "identification number";
  ssf_format := fun _ v => ToString v;
  date_getTime := fun _ => NaN;
  date_fns_format := fun v _ => Ok (ToString v)
|}.

Definition num (literal : string) : JSValue := VNum (stringToNumber literal).

Definition quietWorld : World := mkWorld None false [].

Definition stateWorld : World :=
  mkWorld (Some [("state code", ["ny"; "nj"])]) true [].

(** The same table, seen by a process that is not verbose and has already
    written to the console. *)
Definition laterWorld : World :=
  mkWorld (Some [("state code", ["ny"; "nj"])]) false ["earlier output"].

Definition plainContext : @ValidateContext plainHost := emptyContext.

Definition sampleRules : list (@Rule plainHost) :=
  [("state", isValidState, None, None);
   ("zip", isValidZip, Some "Zip {} is not valid", None)].

Definition sampleTabs : list (@TabValidator plainHost) :=
  [validateSingleDocument "cover" [("name", isNotBlank, None, None)]
     "cover requires exactly one row";
   validateDocuments "subrecipient" sampleRules].

Definition sampleDocuments : list Document :=
  [mkDocument "subrecipient" [("state", VStr "NY"); ("zip", VStr "1234")]
     (num "2");
   mkDocument "subrecipient" [("state", VStr "ZZ"); ("zip", VStr "12345")]
     (num "3")].

Definition samplePeriod : ReportingPeriodRow :=
  mkReportingPeriodRow (VStr "2020-03-01") (VStr "2020-12-30")
    (VStr "2020-12-30") None.

(** One record with amount 50; a first summary that has no
    [current_amount], then one with 30. *)
Definition amountRecord : Obj := [("amount", num "50")].



Definition contextWithFilePart (key part : string)
    : @ValidateContext plainHost :=
  @mkValidateContext plainHost (Some [(key, part)]) None None None None None.

Definition brokenSummary : Obj := [("award_number", VStr "A-1")].

Definition summary30 : Obj := [("current_amount", num "30")].

Definition contextWithSummaries (summaries : list Obj)
    : @ValidateContext plainHost :=
  mkValidateContext None None None None None (Some summaries).

Definition anySummary (s : Obj) : bool := true.

Definition taggedX : option Options.t := Some (Options.mk (Some ["X"]) false).

Definition contextWithTags (active : option (list string))
    : @ValidateContext plainHost :=
  mkValidateContext None None None None active None.

Definition contextWithEndDate (endOfPerformance : string)
    : @ValidateContext plainHost :=
  mkValidateContext None None
    (Some (mkReportingPeriod "2020-03-01" "2020-12-30" endOfPerformance))
    None None None.

Definition stateRules : list (@Rule plainHost) :=
  [("state", isValidState, None, None)].

Definition numericState (sourceRow : string) : Document :=
  mkDocument "cover" [("state", num "5")] (num sourceRow).

(** A catalog that reports one finding for each of the rows 2 to 151, and
    one that reports three. *)
Definition findingsForRows (first count : nat) : list ValidationItem :=
  map (fun n => mkValidationItem "Empty or invalid entry" "cover"
                  (Some (VNum (of_Z (Z.of_nat n)))))
      (seq first count).

Definition tab150 : @TabValidator plainHost :=
  fun _ _ => ret (findingsForRows 2 150).

Definition tab3 : @TabValidator plainHost :=
  fun _ _ => ret (findingsForRows 2 3).

(** ** Notions used by the further properties *)

Section FurtherNotions.
Context `{Host}.

(** The document belongs to the tab. *)
Definition ofType (tab : string) (d : Document) : bool :=
  (type d =? tab)%string.

(** One run after the other, the findings of the first before those of
    the second. *)
Definition thenAppend {A} (c1 c2 : M (list A)) : M (list A) :=
  xs <- c1 ;; ys <- c2 ;; ret (xs ++ ys)%list.

(** No [$] in the text. *)
Fixpoint noDollar (s : string) : bool :=
  match s with
  | String c r => negb (code c =? 36) && noDollar r
  | EmptyString => true
  end.

(** The text holds the placeholder [{}]. *)
Definition hasPlaceholder (s : string) : bool :=
  match split_at_first "{}" s with
  | Some _ => true
  | None => false
  end.

(** Decimal digits only. *)
Fixpoint allDigits (s : string) : bool :=
  match s with
  | String c r =>
      match digit_val 10 c with
      | Some _ => allDigits r
      | None => false
      end
  | EmptyString => true
  end.

(** The same record, reported as row 2. *)
Definition atRowTwo (d : Document) : Document :=
  mkDocument (type d) (content d) (VNum (of_Z 2)).

End FurtherNotions.

(** A host whose date-fns accepts formatted text only. *)
Definition strictHost : Host := {|
  SubrecipientsHash := list string;
  getSubrecipientsHash := fun _ => [];
  hasSubrecipient := fun h v => existsb (String.eqb (ToString v)) h;
  subrecipientKey := fun c => get c "identification number";
  ssf_format := fun _ v => ToString v;
  date_getTime := fun _ => NaN;
  date_fns_format := fun v _ =>
    match v with
    | VStr s => Ok s
    | _ => Throw (RangeError "Invalid time value")
    end
|}.

Definition coverDocument (name : string) (sourceRow : string) : Document :=
  mkDocument "cover" [("name", VStr name)] (num sourceRow).

Definition grantDocument (name : string) (sourceRow : string) : Document :=
  mkDocument "grants" [("name", VStr name)] (num sourceRow).

Definition nameRules : list (@Rule plainHost) :=
  [("name", isNotBlank, Some "Name {} is required", None)].

Definition mixedDocuments : list Document :=
  [coverDocument "" "2"; grantDocument "" "2"; coverDocument "x" "3";
   grantDocument "y" "3"; coverDocument "" "4"].

(** The context [validateData] builds from [samplePeriod] under
    [plainHost], with no file parts and no summaries. *)
Definition sampleContext : @ValidateContext plainHost :=
  @mkValidateContext plainHost None (Some "2020-03-01")
    (Some (mkReportingPeriod "2020-03-01" "2020-12-30" "2020-12-30"))
    (Some ([] : list string)) None None.

(** A reporting period whose start is after its end. *)
Definition invertedContext : @ValidateContext plainHost :=
  mkValidateContext None None
    (Some (mkReportingPeriod "2020-12-30" "2020-03-01" "2020-12-30"))
    None None None.

(** A row of the reporting periods table without an end date. *)
Definition openEndedPeriod : ReportingPeriodRow :=
  mkReportingPeriodRow (VStr "2020-03-01") VNull (VStr "2020-12-30") None.

Definition nameAndStateRecord : Obj :=
  [("name", VStr ""); ("state", num "5")].

Definition stateRule : @Rule plainHost := ("state", isValidState, None, None).

Definition nameFinding (sourceRow : string) : ValidationItem :=
  mkValidationItem "Name  is required" "cover" (Some (num sourceRow)).

Definition notedAmounts : Obj :=
  [("a", num "0.1"); ("note", VStr "n/a"); ("b", num "0.2")].

Definition summary12 : Obj := [("current_amount", VStr "12.5")].

(** * Properties *)

Create HintDb stable.

Section Properties.
Context `{Host}.

(** ** The executor, rule by rule *)

Lemma validateField_valog rule content tab row context valog w :
  validateField rule content tab row context valog w =
  match validateField rule content tab row context [] w with
  | (Ok vs, w') => (Ok (valog ++ vs)%list, w')
  | (Throw e, w') => (Throw e, w')
  end.
Proof.
  destruct rule as [[[key validator] message] options].
  unfold validateField.
  destruct (includeValidator options context); cbn.
  - unfold bind.
    destruct (validator _ content context w) as [[[|]|e] w']; cbn;
      now rewrite ?app_nil_r.
  - now rewrite app_nil_r.
Qed.

Lemma forEachField_valog rules content tab row context : forall valog w,
  forEachField rules content tab row context valog w =
  match forEachField rules content tab row context [] w with
  | (Ok vs, w') => (Ok (valog ++ vs)%list, w')
  | (Throw e, w') => (Throw e, w')
  end.
Proof.
  induction rules as [|rule rest IH]; intros valog w; cbn.
  - now rewrite app_nil_r.
  - unfold bind.
    rewrite (validateField_valog rule content tab row context valog w).
    destruct (validateField rule content tab row context [] w)
      as [[vs|e] w']; [|reflexivity].
    rewrite (IH (valog ++ vs)%list w'), (IH vs w').
    destruct (forEachField rest content tab row context [] w')
      as [[us|e] w'']; [|reflexivity].
    now rewrite app_assoc.
Qed.

Lemma validateFields_cons key validator message options rest
    content tab row context w :
  validateFields ((key, validator, message, options) :: rest)
    content tab row context w =
  if includeValidator options context then
    (ok <- validator (or_else (get content key) (VStr "")) content context ;;
     fs <- validateFields rest content tab row context ;;
     ret (if ok then fs
          else ruleFinding key message options
                 (or_else (get content key) (VStr "")) tab row :: fs)) w
  else validateFields rest content tab row context w.
Proof.
  unfold validateFields; cbn [forEachField]. unfold validateField.
  destruct (includeValidator options context); [|reflexivity].
  destruct (validator (or_else (get content key) (VStr "")) content context w)
    as [[ok|e] w'] eqn:E; unfold bind; rewrite E; [|reflexivity].
  destruct ok; cbn.
  - now destruct (forEachField rest content tab row context [] w')
      as [[us|e] w''].
  - rewrite forEachField_valog.
    now destruct (forEachField rest content tab row context [] w')
      as [[us|e] w''].
Qed.

Lemma intersection_empty a b :
  Lodash.intersection a b = [] <->
  forall t, In t a -> ~ In t b.
Proof.
  unfold Lodash.intersection.
  induction a as [|x a IH]; cbn [filter].
  - split; [intros _ t [] | reflexivity].
  - destruct (existsb (String.eqb x) b) eqn:E.
    + split; [discriminate|].
      intros N. exfalso. apply (N x); [now left|].
      apply existsb_exists in E. destruct E as [y [I E]].
      apply String.eqb_eq in E. now subst y.
    + rewrite IH. split.
      * intros N t [<-|I]; [|now apply N].
        intros I. assert (T : existsb (String.eqb x) b = true).
        { apply existsb_exists. exists x. split; [assumption|].
          apply String.eqb_refl. }
        congruence.
      * intros N t I. apply N. now right.
Qed.

Lemma includeValidator_spec options context :
  includeValidator options context = true <-> ruleApplies options context.
Proof.
  unfold includeValidator, ruleApplies, declaredTags.
  destruct (match options with Some o => Options.tags o | None => None end)
    as [ruleTags|]; [|tauto].
  destruct (tags context) as [contextTags|].
  - pose proof (intersection_empty ruleTags contextTags) as IE.
    destruct (Lodash.intersection ruleTags contextTags) as [|t ts] eqn:N;
      cbn [negb].
    + split; [discriminate|]. intros [t [I1 I2]].
      exfalso. now apply (proj1 IE eq_refl t).
    + split; [intros _|reflexivity].
      assert (I : In t (Lodash.intersection ruleTags contextTags))
        by (rewrite N; now left).
      clear IE N. unfold Lodash.intersection in I.
      assert (G : forall seen l, In t (Lodash.uniq_from seen l) -> In t l).
      { intros seen l. revert seen.
        induction l as [|y l IHl]; intros seen; cbn; [tauto|].
        destruct (existsb (String.eqb y) seen).
        - intros J. right. now apply (IHl seen).
        - intros [J|J]; [now left | right; now apply (IHl (y :: seen))]. }
      apply G, filter_In in I. destruct I as [I1 I2].
      apply existsb_exists in I2. destruct I2 as [u [I2 E2]].
      apply String.eqb_eq in E2. subst u. now exists t.
  - split; [discriminate|]. now intros [t [_ F]].
Qed.

(** C2. Tag filtering is a set-intersection gate.  A rule is let through
    exactly when it declares no tags or one of its tags is active in the
    context (never when the context has no tags and the rule has some).  A
    rule that is let through has its predicate evaluated on the field value
    and reports a finding when the predicate fails; a rule that is not let
    through is skipped: the outcome, findings and world are those of the
    remaining rules, whatever its predicate would have done. *)
Theorem tag_filtering_gate key validator message options rest
    content tab row context w :
  (includeValidator options context = true <-> ruleApplies options context) /\
  validateFields ((key, validator, message, options) :: rest)
    content tab row context w =
  if includeValidator options context then
    (ok <- validator (or_else (get content key) (VStr "")) content context ;;
     fs <- validateFields rest content tab row context ;;
     ret (if ok then fs
          else ruleFinding key message options
                 (or_else (get content key) (VStr "")) tab row :: fs)) w
  else validateFields rest content tab row context w.
Proof.
  split.
  - apply includeValidator_spec.
  - apply validateFields_cons.
Qed.

(** ** Single-record tabs *)

(** C6. On a tab with no record or with two or more, the single-record
    validator returns exactly one finding with the supplied message and no
    row, leaving the world untouched and never looking at the rules; on a
    tab with exactly one record it is [validateFields] on that record with
    row number 2. *)
Theorem single_record_cardinality tab validations message
    groupedDocuments context w :
  (List.length (recordsOf tab groupedDocuments) <> 1%nat ->
   validateSingleDocument tab validations message groupedDocuments context w =
   (Ok [mkValidationItem message tab None], w)) /\
  (forall d, recordsOf tab groupedDocuments = [d] ->
   validateSingleDocument tab validations message groupedDocuments context w =
   validateFields validations (content d) tab (VNum (of_Z 2)) context w).
Proof.
  unfold recordsOf, validateSingleDocument.
  destruct (lookup tab groupedDocuments) as [[|d0 [|d1 ds]]|]; cbn [List.length].
  - split; [reflexivity | discriminate].
  - split; [intros N; now elim N|].
    intros d E. injection E as <-. unfold bind.
    now destruct (validateFields validations (content d0) tab
                    (VNum (of_Z 2)) context w) as [[vs|e] w'].
  - split; [reflexivity | discriminate].
  - split; [reflexivity | discriminate].
Qed.

(** ** Falsy field values *)

Lemma messageValue_empty options : messageValue (VStr "") options = VStr "".
Proof.
  unfold messageValue. destruct options as [o|]; [|reflexivity].
  cbn. now rewrite andb_false_r.
Qed.

Lemma or_else_falsy v d : ToBoolean v = false -> or_else v d = d.
Proof. intros E. unfold or_else. now rewrite E. Qed.

(** C9. A falsy raw field value is replaced by the empty string before the
    predicate sees it and before the message is formatted: the rule behaves
    as if the field held [""].  Absent, [null], [false], the two zeros,
    [NaN] and the empty string are all falsy.  In particular a field that
    holds the number 0 fails [isNumber] and [isPositiveNumber] with the
    empty string in the message, although [isNumber] accepts 0 itself. *)
Theorem falsy_value_reaches_predicate_as_empty_string key validator message
    options rest content tab row context w :
  (ToBoolean (get content key) = false ->
   validateFields ((key, validator, message, options) :: rest)
     content tab row context w =
   if includeValidator options context then
     (ok <- validator (VStr "") content context ;;
      fs <- validateFields rest content tab row context ;;
      ret (if ok then fs
           else mkValidationItem
                  (replace (messageTemplate key message) "{}" "")
                  tab (Some row) :: fs)) w
   else validateFields rest content tab row context w) /\
  (ToBoolean VUndefined = false /\ ToBoolean VNull = false /\
   ToBoolean (VBool false) = false /\ ToBoolean (VStr "") = false /\
   ToBoolean (VNum NaN) = false /\
   forall s, ToBoolean (VNum (S754_zero s)) = false) /\
  (forall s, get content key = VNum (S754_zero s) ->
   isNumber (get content key) content context w = (Ok true, w) /\
   validateFields [(key, isNumber, message, None)] content tab row context w =
   (Ok [mkValidationItem (replace (messageTemplate key message) "{}" "")
          tab (Some row)], w) /\
   validateFields [(key, isPositiveNumber, message, None)]
     content tab row context w =
   (Ok [mkValidationItem (replace (messageTemplate key message) "{}" "")
          tab (Some row)], w)).
Proof.
  split; [|split].
  - intros F. rewrite validateFields_cons, (or_else_falsy _ _ F).
    unfold ruleFinding. now rewrite messageValue_empty.
  - repeat split.
  - intros s E. split; [|split].
    + now rewrite E.
    + rewrite validateFields_cons, E. reflexivity.
    + rewrite validateFields_cons, E. reflexivity.
Qed.

(** ** Truncation in the orchestrator *)

Lemma runsTabs_nil_inv g c w rs w' :
  runsTabs g c [] w rs w' -> rs = [] /\ w' = w.
Proof. intros R. inversion R; subst. now split. Qed.

Lemma runsTabs_cons_inv g c tv tvs w rs w'' :
  runsTabs g c (tv :: tvs) w rs w'' ->
  exists r rs' w', rs = r :: rs' /\ tv g c w = (Ok r, w') /\
                   runsTabs g c tvs w' rs' w''.
Proof.
  intros R. inversion R as [|tv0 tvs0 w0 w1 w2 r rs' E R']; subst.
  now exists r, rs', w1.
Qed.

Lemma flatMapM_runs (F : list ValidationItem -> list ValidationItem)
    g c tvs : forall w out w',
  flatMapM (fun tv : TabValidator => findings <- tv g c ;; ret (F findings))
    tvs w = (Ok out, w') <->
  exists rs, runsTabs g c tvs w rs w' /\ out = List.concat (map F rs).
Proof.
  set (f := fun tv : TabValidator => findings <- tv g c ;; ret (F findings)).
  induction tvs as [|tv tvs IH]; intros w out w'; cbn [flatMapM].
  - split.
    + intros E. injection E as <- <-.
      exists []. split; [constructor | reflexivity].
    + intros [rs [R ->]]. apply runsTabs_nil_inv in R as [-> ->]. reflexivity.
  - unfold f at 1. unfold bind, ret.
    destruct (tv g c w) as [[r|e] w1] eqn:E.
    + split.
      * destruct (flatMapM f tvs w1) as [[zs|e] w2] eqn:E2; [|discriminate].
        intros E3. injection E3 as <- <-.
        apply IH in E2. destruct E2 as [rs [R ->]].
        exists (r :: rs). split; [econstructor; eassumption | reflexivity].
      * intros [rs [R ->]].
        apply runsTabs_cons_inv in R as [r' [rs' [w1' [-> [E' R]]]]].
        rewrite E in E'. injection E' as <- <-.
        assert (E2 : flatMapM f tvs w1 = (Ok (List.concat (map F rs')), w'))
          by (apply IH; now exists rs').
        now rewrite E2.
    + split; [discriminate|].
      intros [rs [R _]].
      apply runsTabs_cons_inv in R as [r' [rs' [w1' [_ [E' _]]]]].
      rewrite E in E'. discriminate.
Qed.

(** C1. A run of the orchestrator returns [out] exactly when the context
    builds, every tab validator returns in turn, and [out] is the
    concatenation, in catalog order, of each validator's list cut to its
    first 100 findings.  The cut keeps a prefix of at most 100 findings, in
    their order, and drops the rest; a list of 150 findings contributes its
    first 100. *)
Theorem per_tab_truncation_before_flattening tabValidators documents
    fileParts reportingPeriod periodSummaries w out w' :
  (validateData tabValidators documents fileParts reportingPeriod
     periodSummaries w = (Ok out, w') <->
   exists validateContext w1 rs,
     buildContext (groupBy documents) fileParts reportingPeriod
       periodSummaries w = (Ok validateContext, w1) /\
     runsTabs (groupBy documents) validateContext tabValidators w1 rs w' /\
     out = List.concat (map (fun findings => Lodash.take findings 100) rs)) /\
  (forall findings : list ValidationItem,
     (List.length (Lodash.take findings 100) <= 100)%nat /\
     (exists dropped, findings = (Lodash.take findings 100 ++ dropped)%list) /\
     (List.length findings = 150%nat ->
      List.length (Lodash.take findings 100) = 100%nat /\
      Lodash.take findings 100 = firstn 100 findings)).
Proof.
  split.
  - unfold validateData. unfold bind at 1.
    destruct (buildContext (groupBy documents) fileParts reportingPeriod
                periodSummaries w) as [[ctx|e] w1] eqn:B.
    + rewrite (flatMapM_runs (fun findings => Lodash.take findings 100)).
      split.
      * intros [rs [R ->]]. now exists ctx, w1, rs.
      * intros [ctx' [w1' [rs [E [R ->]]]]]. injection E as <- <-.
        now exists rs.
    + split; [discriminate|].
      intros [ctx' [w1' [rs [E _]]]]. discriminate.
  - intros findings. unfold Lodash.take. split; [|split].
    + apply firstn_le_length.
    + exists (skipn 100 findings). symmetry. apply firstn_skipn.
    + intros L. split; [|reflexivity].
      rewrite length_firstn, L. reflexivity.
Qed.

(** ** Predicates that throw *)

(** C4. Not every predicate is total.  With the dropdown table loaded,
    [dropdownIncludes] and [isValidState] throw a TypeError on every
    number, since a number has no [toLowerCase]; [matchesFilePart] throws
    whenever the context has no entry for its key, or no file parts at
    all; the two date-bound predicates throw when the context has no
    reporting period. *)
Theorem predicates_throw_on_malformed_input key x val content context
    all v lines w :
  dropdownIncludes key (VNum x) (mkWorld (Some all) v lines) =
    (Throw (TypeError "val.toLowerCase is not a function"),
     mkWorld (Some all) v lines) /\
  fst (isValidState (VNum x) content context (mkWorld (Some all) v lines)) =
    Throw (TypeError "val.toLowerCase is not a function") /\
  (forall parts, fileParts context = Some parts -> lookup key parts = None ->
   matchesFilePart key val content context w =
     (Throw (TypeError "Cannot read property 'replace' of undefined"), w)) /\
  (fileParts context = None ->
   exists e, matchesFilePart key val content context w = (Throw e, w)) /\
  (reportingPeriod context = None ->
   (exists e, dateIsInPeriodOfPerformance val content context w = (Throw e, w)) /\
   (exists e, dateIsInReportingPeriod val content context w = (Throw e, w))).
Proof.
  split; [reflexivity|]. split; [|split; [|split]].
  - unfold isValidState, bind, log. cbn [verbose].
    destruct v; reflexivity.
  - intros parts E L. unfold matchesFilePart. now rewrite E, L.
  - intros E. unfold matchesFilePart. rewrite E. eexists. reflexivity.
  - intros E. unfold dateIsInPeriodOfPerformance, dateIsInReportingPeriod.
    rewrite E. split; eexists; reflexivity.
Qed.

(** ** Leading zeros *)

Lemma strip_leading_zeros_zeros n s :
  strip_leading_zeros (zeros n ++ s) = strip_leading_zeros s.
Proof. induction n as [|n IH]; [reflexivity | exact IH]. Qed.

Lemma ToString_or_else_string s :
  ToString (or_else (VStr s) (VStr "")) = s.
Proof.
  unfold or_else. cbn [ToBoolean].
  destruct (String.eqb_spec s "") as [->|N]; reflexivity.
Qed.

Lemma strip_leading_zeros_fixed a :
  noLeadingZero a = true -> strip_leading_zeros a = a.
Proof.
  destruct a as [|c r]; [reflexivity|]. cbn [noLeadingZero].
  destruct c as [[] [] [] [] [] [] [] []]; intros E;
    try reflexivity; discriminate E.
Qed.

(** Every text is a run of zeros followed by a text that does not begin
    with a zero. *)
Lemma leading_zeros_split s :
  exists n a, s = zeros n ++ a /\ noLeadingZero a = true.
Proof.
  induction s as [|c r IH].
  - now exists 0%nat, "".
  - destruct (Ascii.eqb c "0") eqn:E.
    + apply Ascii.eqb_eq in E. subst c. destruct IH as [n [a [-> N]]].
      exists (S n), a. now split.
    + exists 0%nat, (String c r). split; [reflexivity|].
      cbn [noLeadingZero]. now rewrite E.
Qed.

(** C8. When the context has an entry for the key, [matchesFilePart]
    compares the value (the empty string for a falsy one), as a string,
    with the entry, both without their leading zeros: each of the two texts
    is a run of zeros followed by a remainder that does not begin with a
    zero, and the answer is whether the two remainders are the same text,
    whatever the two runs of zeros are; nothing but the leading zeros is
    removed.  So the answer does not change when any number of zeros is put
    in front of a string value, of the entry, or of both. *)
Theorem matchesFilePart_ignores_leading_zeros key val content context
    parts part w :
  fileParts context = Some parts ->
  lookup key parts = Some part ->
  (exists n m a b,
     ToString (or_else val (VStr "")) = zeros n ++ a /\
     part = zeros m ++ b /\
     noLeadingZero a = true /\ noLeadingZero b = true) /\
  (forall n m a b,
     ToString (or_else val (VStr "")) = zeros n ++ a ->
     part = zeros m ++ b ->
     noLeadingZero a = true ->
     noLeadingZero b = true ->
     matchesFilePart key val content context w = (Ok (a =? b)%string, w)) /\
  (forall n m s content' context' parts',
     val = VStr s ->
     fileParts context' = Some parts' ->
     lookup key parts' = Some (zeros m ++ part) ->
     matchesFilePart key (VStr (zeros n ++ s)) content' context' w =
     matchesFilePart key val content context w).
Proof.
  intros E L. split; [|split].
  - destruct (leading_zeros_split (ToString (or_else val (VStr ""))))
      as [n [a [Ea Na]]].
    destruct (leading_zeros_split part) as [m [b [Eb Nb]]].
    now exists n, m, a, b.
  - intros n m a b Ea Eb Na Nb. unfold matchesFilePart. rewrite E, L, Ea, Eb.
    rewrite !strip_leading_zeros_zeros.
    now rewrite (strip_leading_zeros_fixed a Na),
                (strip_leading_zeros_fixed b Nb).
  - intros n m s content' context' parts' -> E' L'.
    unfold matchesFilePart. rewrite E, L, E', L'.
    now rewrite !ToString_or_else_string, !strip_leading_zeros_zeros.
Qed.

(** ** The period of performance *)

Lemma ascii_compare_lt_trans a b c :
  Ascii.compare a b = Lt -> Ascii.compare b c = Lt -> Ascii.compare a c = Lt.
Proof.
  unfold Ascii.compare. rewrite !N.compare_lt_iff. apply N.lt_trans.
Qed.

Lemma ascii_compare_refl a : Ascii.compare a a = Eq.
Proof. apply N.compare_refl. Qed.

Lemma string_compare_refl a : String.compare a a = Eq.
Proof.
  induction a as [|x a IH]; [reflexivity|].
  cbn. now rewrite ascii_compare_refl.
Qed.

Lemma string_compare_lt_trans : forall a b c,
  String.compare a b = Lt -> String.compare b c = Lt -> String.compare a c = Lt.
Proof.
  induction a as [|x a IH]; intros [|y b] [|z c]; cbn; try discriminate;
    try reflexivity.
  destruct (Ascii.compare x y) eqn:XY; try discriminate;
    destruct (Ascii.compare y z) eqn:YZ; try discriminate; intros E1 E2.
  - apply Ascii.compare_eq_iff in XY, YZ. subst.
    rewrite ascii_compare_refl. now apply (IH b).
  - apply Ascii.compare_eq_iff in XY. subst. now rewrite YZ.
  - apply Ascii.compare_eq_iff in YZ. subst. now rewrite XY.
  - now rewrite (ascii_compare_lt_trans _ _ _ XY YZ).
Qed.

Lemma string_leb_trans a b c :
  String.leb a b = true -> String.leb b c = true -> String.leb a c = true.
Proof.
  unfold String.leb.
  destruct (String.compare a b) eqn:AB; try discriminate;
    destruct (String.compare b c) eqn:BC; try discriminate; intros _ _.
  - apply String.compare_eq_iff in AB, BC. subst.
    now rewrite string_compare_refl.
  - apply String.compare_eq_iff in AB. subst. now rewrite BC.
  - apply String.compare_eq_iff in BC. subst. now rewrite AB.
  - now rewrite (string_compare_lt_trans _ _ _ AB BC).
Qed.

(** C10. [dateIsInPeriodOfPerformance] returns true exactly when the
    context has reporting-period bounds and the value, formatted as
    yyyy-MM-dd, is at most the period-of-performance end date.  There is no
    lower bound: whatever formats to an earlier (or the same) string as an
    accepted value is accepted too, and the empty string, the least of all
    strings, is accepted under every end date. *)
Theorem period_of_performance_has_no_lower_bound val content context w :
  (dateIsInPeriodOfPerformance val content context w = (Ok true, w) <->
   exists rp, reportingPeriod context = Some rp /\
     String.leb (ssf_format "yyyy-MM-dd" val)
                (periodOfPerformanceEndDate rp) = true) /\
  (forall earlier,
     String.leb (ssf_format "yyyy-MM-dd" earlier)
                (ssf_format "yyyy-MM-dd" val) = true ->
     dateIsInPeriodOfPerformance val content context w = (Ok true, w) ->
     dateIsInPeriodOfPerformance earlier content context w = (Ok true, w)) /\
  (forall blank rp,
     ssf_format "yyyy-MM-dd" blank = "" ->
     reportingPeriod context = Some rp ->
     dateIsInPeriodOfPerformance blank content context w = (Ok true, w)).
Proof.
  assert (Spec : forall v,
    dateIsInPeriodOfPerformance v content context w = (Ok true, w) <->
    exists rp, reportingPeriod context = Some rp /\
      String.leb (ssf_format "yyyy-MM-dd" v)
                 (periodOfPerformanceEndDate rp) = true).
  { intros v. unfold dateIsInPeriodOfPerformance.
    destruct (reportingPeriod context) as [rp|].
    - unfold ret. split.
      + intros E. exists rp. split; [reflexivity|]. now injection E.
      + intros [rp' [E L]]. injection E as <-. now rewrite L.
    - split; [discriminate|]. now intros [rp' [E _]]. }
  split; [apply Spec|]. split.
  - intros earlier L A. apply Spec in A. destruct A as [rp [E L']].
    apply Spec. exists rp. split; [assumption|].
    now apply (string_leb_trans _ _ _ L L').
  - intros blank rp B E. apply Spec. exists rp. split; [assumption|].
    rewrite B. now destruct (periodOfPerformanceEndDate rp).
Qed.

(** ** Determinism *)

Lemma stable_ret {A} (a : A) : snapshotStable (ret a).
Proof. intros w1 w2 S. now split. Qed.

Lemma stable_throw {A} (e : JSError) : snapshotStable (@throw A e).
Proof. intros w1 w2 S. now split. Qed.

Lemma stable_lift {A} (o : Outcome A) : snapshotStable (lift o).
Proof. intros w1 w2 S. now split. Qed.

Lemma stable_bind {A B} (c : M A) (k : A -> M B) :
  snapshotStable c -> (forall a, snapshotStable (k a)) ->
  snapshotStable (bind c k).
Proof.
  intros Sc Sk w1 w2 S.
  destruct (Sc w1 w2 S) as [E1 P1].
  destruct (Sc w2 w1 (eq_sym S)) as [_ P2].
  unfold bind.
  destruct (c w1) as [o1 w1'], (c w2) as [o2 w2']; cbn in E1, P1, P2.
  subst o2. destruct o1 as [a|e].
  - assert (S' : sameSnapshot w1' w2').
    { unfold sameSnapshot in *. congruence. }
    destruct (Sk a w1' w2' S') as [E2 P3]. split; [assumption|].
    unfold sameSnapshot in *. congruence.
  - now split.
Qed.

Lemma stable_getDropdownValues : snapshotStable getDropdownValues.
Proof. intros w1 w2 S. split; [cbn; now rewrite S | reflexivity]. Qed.

Lemma stable_console_log line : snapshotStable (console_log line).
Proof. intros w1 w2 S. now split. Qed.

Lemma stable_log line : snapshotStable (log line).
Proof.
  intros w1 w2 S. unfold log.
  destruct (verbose w1), (verbose w2); now split.
Qed.

Lemma stable_undefined_property {A} name :
  snapshotStable (@undefined_property A name).
Proof. apply stable_throw. Qed.

#[local] Hint Resolve stable_ret stable_throw stable_lift
  stable_undefined_property stable_getDropdownValues stable_console_log
  stable_log : stable.

(** One step through a sequence of effects. *)
Ltac stable_bind := apply stable_bind; [auto with stable | intros ?].

Lemma stable_flatMapM {A B} (f : A -> M (list B)) xs :
  (forall x, In x xs -> snapshotStable (f x)) ->
  snapshotStable (flatMapM f xs).
Proof.
  induction xs as [|x xs IH]; intros Sf; cbn [flatMapM]; auto with stable.
  apply stable_bind; [apply Sf; now left | intros ys].
  apply stable_bind; [|intros zs; auto with stable].
  apply IH. intros y I. apply Sf. now right.
Qed.

Lemma stable_dropdownIncludes key val : snapshotStable (dropdownIncludes key val).
Proof.
  unfold dropdownIncludes. stable_bind.
  destruct a as [all|].
  - apply stable_bind;
      [destruct val; cbn [callToLowerCase]; auto with stable | intros lowered].
    stable_bind. auto with stable.
  - stable_bind. auto with stable.
Qed.

Lemma stable_isValidState : stableValidator isValidState.
Proof.
  intros val content context. unfold isValidState. stable_bind.
  apply stable_dropdownIncludes.
Qed.

Lemma stable_whenBlank key validator :
  stableValidator validator -> stableValidator (whenBlank key validator).
Proof.
  intros S val content context. unfold whenBlank.
  destruct (ToBoolean (get content key)); [auto with stable | apply S].
Qed.

Lemma stable_whenNotBlank key validator :
  stableValidator validator -> stableValidator (whenNotBlank key validator).
Proof.
  intros S val content context. unfold whenNotBlank.
  destruct (negb (ToBoolean (get content key))); [auto with stable | apply S].
Qed.

Lemma stable_whenUS key validator :
  stableValidator validator -> stableValidator (whenUS key validator).
Proof.
  intros S val content context. unfold whenUS.
  destruct (negb (isUnitedStates (get content key)));
    [auto with stable | apply S].
Qed.

Lemma stable_whenGreaterThanZero key validator :
  stableValidator validator ->
  stableValidator (whenGreaterThanZero key validator).
Proof.
  intros S val content context. unfold whenGreaterThanZero.
  destruct (gt_number (get content key) (of_Z 0)); [apply S | auto with stable].
Qed.

Lemma stable_matchesFilePart key : stableValidator (matchesFilePart key).
Proof.
  intros val content context. unfold matchesFilePart.
  destruct (fileParts context) as [parts|]; [|auto with stable].
  destruct (lookup key parts); auto with stable.
Qed.

Lemma stable_dateIsInPeriodOfPerformance :
  stableValidator dateIsInPeriodOfPerformance.
Proof.
  intros val content context.
  unfold dateIsInPeriodOfPerformance.
  destruct (reportingPeriod context); auto with stable.
Qed.

Lemma stable_dateIsInReportingPeriod :
  stableValidator dateIsInReportingPeriod.
Proof.
  intros val content context.
  unfold dateIsInReportingPeriod.
  destruct (reportingPeriod context); auto with stable.
Qed.

Lemma stable_isValidSubrecipient : stableValidator isValidSubrecipient.
Proof.
  intros val content context. unfold isValidSubrecipient.
  destruct (subrecipientsHash context); auto with stable.
Qed.

(** Every predicate of the library depends on the world through the
    snapshot at most. *)
Lemma library_predicates_stable :
  stableValidator dateIsInPeriodOfPerformance /\
  stableValidator dateIsInReportingPeriod /\
  (forall key, stableValidator (dateIsOnOrBefore key)) /\
  (forall key, stableValidator (dateIsOnOrAfter key)) /\
  stableValidator hasSubrecipientKey /\
  stableValidator isNotBlank /\
  stableValidator isNumber /\
  stableValidator isNumberOrBlank /\
  stableValidator isPositiveNumber /\
  stableValidator isAtLeast50K /\
  (forall column, stableValidator (isEqual column)) /\
  (forall columns, stableValidator (isSum columns)) /\
  (forall key p, stableValidator (cumulativeAmountIsEqual key p)) /\
  stableValidator isValidDate /\
  stableValidator isValidSubrecipient /\
  stableValidator isValidState /\
  stableValidator isValidZip /\
  (forall key, stableValidator (matchesFilePart key)) /\
  (forall key, stableValidator (numberIsLessThanOrEqual key)) /\
  (forall key, stableValidator (numberIsGreaterThanOrEqual key)) /\
  (forall key, stableValidator (fun val _ _ => dropdownIncludes key val)).
Proof.
  repeat match goal with |- _ /\ _ => split end;
    first
      [ apply stable_dateIsInPeriodOfPerformance
      | apply stable_dateIsInReportingPeriod
      | apply stable_isValidSubrecipient
      | apply stable_isValidState
      | apply stable_matchesFilePart
      | intros key val content context; apply stable_dropdownIncludes
      | intros val content context; apply stable_ret
      | intros k val content context; apply stable_ret
      | intros k p val content context; apply stable_ret ].
Qed.

Lemma stable_validateField rule content tab row context valog :
  stableRule rule ->
  snapshotStable (validateField rule content tab row context valog).
Proof.
  destruct rule as [[[key validator] message] options]. cbn. intros S.
  destruct (includeValidator options context); [|auto with stable].
  apply stable_bind; [apply S|]. intros [|]; apply stable_ret.
Qed.

Lemma stable_forEachField rules content tab row context :
  Forall stableRule rules ->
  forall valog, snapshotStable (forEachField rules content tab row context valog).
Proof.
  induction 1 as [|rule rest S _ IH]; intros valog; cbn [forEachField].
  - apply stable_ret.
  - apply stable_bind; [now apply stable_validateField | apply IH].
Qed.

Lemma stable_validateFields rules content tab row context :
  Forall stableRule rules ->
  snapshotStable (validateFields rules content tab row context).
Proof. intros S. now apply stable_forEachField. Qed.

Lemma stable_validateDocuments tab validations :
  Forall stableRule validations -> stableTab (validateDocuments tab validations).
Proof.
  intros S g c. unfold validateDocuments.
  apply stable_flatMapM. intros d _. now apply stable_validateFields.
Qed.

Lemma stable_validateSingleDocument tab validations message :
  Forall stableRule validations ->
  stableTab (validateSingleDocument tab validations message).
Proof.
  intros S g c. unfold validateSingleDocument.
  destruct (lookup tab g) as [[|d [|d' ds]]|]; try apply stable_ret.
  apply stable_bind; [now apply stable_validateFields|].
  intros results. apply stable_ret.
Qed.

Lemma stable_buildContext g fileParts reportingPeriod periodSummaries :
  snapshotStable (buildContext g fileParts reportingPeriod periodSummaries).
Proof.
  unfold buildContext.
  repeat (apply stable_bind; [apply stable_lift|]; intros ?).
  apply stable_ret.
Qed.

Lemma stable_validateData tabValidators documents fileParts reportingPeriod
    periodSummaries :
  Forall stableTab tabValidators ->
  snapshotStable (validateData tabValidators documents fileParts
                    reportingPeriod periodSummaries).
Proof.
  intros S. unfold validateData.
  apply stable_bind; [apply stable_buildContext|]. intros validateContext.
  apply stable_flatMapM. intros tv I.
  apply stable_bind; [|intros findings; apply stable_ret].
  rewrite Forall_forall in S. now apply S.
Qed.

(** C7. Provided every tab catalog depends on the world through the
    reference-table snapshot only and leaves it alone (which holds for the
    catalogs built with [validateDocuments] and [validateSingleDocument]
    from such predicates), two runs on the same arguments, started in
    worlds with the same snapshot, end with the same outcome: the same
    findings in the same order, or the same exception.  A run also leaves
    the snapshot as it was, so running again right after gives the same
    outcome once more. *)
Theorem validateData_is_deterministic tabValidators documents fileParts
    reportingPeriod periodSummaries :
  Forall stableTab tabValidators ->
  (forall w1 w2, sameSnapshot w1 w2 ->
     fst (validateData tabValidators documents fileParts reportingPeriod
            periodSummaries w1) =
     fst (validateData tabValidators documents fileParts reportingPeriod
            periodSummaries w2)) /\
  (forall w,
     fst (validateData tabValidators documents fileParts reportingPeriod
            periodSummaries
            (snd (validateData tabValidators documents fileParts
                    reportingPeriod periodSummaries w))) =
     fst (validateData tabValidators documents fileParts reportingPeriod
            periodSummaries w)).
Proof.
  intros S.
  pose proof (stable_validateData tabValidators documents fileParts
                reportingPeriod periodSummaries S) as St.
  split.
  - intros w1 w2 E. now apply St.
  - intros w. apply St. now apply (St w w).
Qed.

(** ** Sums *)

Lemma num_add_nan_r x : num_add x NaN = NaN.
Proof. now destruct x. Qed.

Lemma cumulative_step_nan acc s :
  ToNumber s = NaN -> cumulative_step acc s = of_Z 0.
Proof. intros E. unfold cumulative_step. now rewrite E, num_add_nan_r. Qed.

Lemma fold_cumulative_restarts before bad after acc :
  ToNumber bad = NaN ->
  fold_left cumulative_step (before ++ bad :: after) acc =
  fold_left cumulative_step after (of_Z 0).
Proof.
  intros E. rewrite fold_left_app. cbn [fold_left].
  now rewrite (cumulative_step_nan _ _ E).
Qed.

(** C3. The running total of [cumulativeAmountIsEqual] starts again from 0
    at a matching summary whose [current_<key>] is not a number: the amount
    of the record itself and the summaries before it are left out of the
    sum that is compared with the value. *)
Theorem cumulative_sum_restarts_at_non_numeric_summary key filterPredicate
    val content context before bad after w :
  periodSummaries context = Some (before ++ bad :: after)%list ->
  filterPredicate bad = true ->
  ToNumber (get bad ("current_" ++ key)) = NaN ->
  cumulativeAmountIsEqual key filterPredicate val content context w =
  (Ok (num_eqb (Lodash.round val 2)
         (Lodash.round
            (VNum (fold_left cumulative_step
                     (map (fun s => get s ("current_" ++ key))
                          (filter filterPredicate after))
                     (of_Z 0))) 2)), w).
Proof.
  intros E P N. unfold cumulativeAmountIsEqual. rewrite E.
  rewrite filter_app. cbn [filter]. rewrite P.
  rewrite map_app. cbn [map].
  now rewrite (fold_cumulative_restarts _ _ _ _ N).
Qed.

Lemma sameUpToZeroSign_refl x : sameUpToZeroSign x x.
Proof. now left. Qed.

Lemma num_add_zero_sign x x' y :
  sameUpToZeroSign x x' -> sameUpToZeroSign (num_add x y) (num_add x' y).
Proof.
  intros [->|[s [t [-> ->]]]]; [now left|].
  destruct y as [u|u| |u m e]; cbn.
  - right. destruct s, t, u; cbn; eauto.
  - now left.
  - now left.
  - now left.
Qed.

Lemma num_or_zero_sign x :
  is_nan x = false -> sameUpToZeroSign (num_or x (of_Z 0)) x.
Proof.
  destruct x as [s|s| |s m e]; cbn; intros N; try discriminate;
    try (now left).
  right. now exists false, s.
Qed.

Lemma is_nan_zero_sign x y :
  sameUpToZeroSign x y -> is_nan x = is_nan y.
Proof. intros [->|[s [t [-> ->]]]]; reflexivity. Qed.

Lemma sameUpToZeroSign_trans x y z :
  sameUpToZeroSign x y -> sameUpToZeroSign y z -> sameUpToZeroSign x z.
Proof.
  intros [->|[s [t [-> ->]]]] [E|[s' [t' [E1 E2]]]]; subst.
  - now left.
  - right. eauto.
  - right. eauto.
  - right. injection E1 as ->. eauto.
Qed.

Lemma round_zero s : Lodash.round (VNum (S754_zero s)) 2 = S754_zero s.
Proof. destruct s; vm_compute; reflexivity. Qed.

Lemma round_zero_sign x y :
  sameUpToZeroSign x y ->
  sameUpToZeroSign (Lodash.round (VNum x) 2) (Lodash.round (VNum y) 2).
Proof.
  intros [->|[s [t [-> ->]]]]; [now left|].
  rewrite !round_zero. right. eauto.
Qed.

Lemma num_eqb_zero_sign v x y :
  sameUpToZeroSign x y -> num_eqb v x = num_eqb v y.
Proof.
  intros [->|[s [t [-> ->]]]]; [reflexivity|].
  now destruct v.
Qed.

(** As long as no running total is NaN, the reducer of
    [cumulativeAmountIsEqual] computes the plain sum, up to the sign of a
    zero. *)
Lemma fold_cumulative_plain values : forall acc acc',
  sameUpToZeroSign acc acc' ->
  neverNaN acc' values = true ->
  sameUpToZeroSign (fold_left cumulative_step values acc)
                   (plainSum acc' values).
Proof.
  induction values as [|s values IH]; intros acc acc' E N; [exact E|].
  cbn [neverNaN] in N. apply andb_prop in N as [N1 N2].
  apply negb_true_iff in N1.
  cbn [fold_left plainSum]. apply IH; [|exact N2].
  unfold cumulative_step.
  pose proof (num_add_zero_sign acc acc' (ToNumber s) E) as A.
  apply sameUpToZeroSign_trans with (y := num_add acc (ToNumber s));
    [|exact A].
  apply num_or_zero_sign. now rewrite (is_nan_zero_sign _ _ A).
Qed.

(** On summaries whose amounts never drive the running total to NaN,
    [cumulativeAmountIsEqual] compares the rounded value with the rounded
    sum of the record's own amount and the matching summaries'
    [current_<key>]. *)
Lemma cumulativeAmountIsEqual_on_numbers key filterPredicate val content
    context summaries w :
  periodSummaries context = Some summaries ->
  neverNaN (num_or (ToNumber (get content key)) (of_Z 0))
    (map (fun s => get s ("current_" ++ key))
         (filter filterPredicate summaries)) = true ->
  cumulativeAmountIsEqual key filterPredicate val content context w =
  (Ok (num_eqb (Lodash.round val 2)
         (Lodash.round
            (VNum (plainSum (num_or (ToNumber (get content key)) (of_Z 0))
                     (map (fun s => get s ("current_" ++ key))
                          (filter filterPredicate summaries)))) 2)), w).
Proof.
  intros E N. unfold cumulativeAmountIsEqual. rewrite E. unfold ret.
  f_equal. f_equal. apply num_eqb_zero_sign, round_zero_sign.
  apply fold_cumulative_plain; [apply sameUpToZeroSign_refl | exact N].
Qed.





End Properties.

(** * Closed instances *)

(** The cases of [validateContext] in the repository's tests. *)
Example test_isSum_correct :
  fst (isSum (H := plainHost) [VStr "amount1"; VStr "amount2"] (num "100.0")
         [("amount1", num "40.0"); ("amount2", num "60.0")]
         plainContext quietWorld) = Ok true.
Proof. vm_compute. reflexivity. Qed.

Example test_isSum_not_correct :
  fst (isSum (H := plainHost) [VStr "amount1"; VStr "amount2"] (num "90.0")
         [("amount1", num "40.0"); ("amount2", num "60.0")]
         plainContext quietWorld) = Ok false.
Proof. vm_compute. reflexivity. Qed.

Example test_isSum_converts_strings :
  fst (isSum (H := plainHost) [VStr "amount1"; VStr "amount2"] (VStr "100.0")
         [("amount1", VStr "40.0"); ("amount2", VStr "60.0")]
         plainContext quietWorld) = Ok true.
Proof. vm_compute. reflexivity. Qed.

Example test_isSum_rounds_binary_noise :
  fst (isSum (H := plainHost) [VStr "a"; VUndefined; VStr "b"] (num "0.3")
         [("a", num "0.1"); ("b", num "0.2")]
         plainContext quietWorld) = Ok true /\
  fst (isSum (H := plainHost) [VStr "a"; VUndefined; VStr "b"] (num "0.31")
         [("a", num "0.1"); ("b", num "0.2")]
         plainContext quietWorld) = Ok false.
Proof. split; vm_compute; reflexivity. Qed.



Example test_validateFields_messages :
  fst (validateFields (H := plainHost)
         [("name", isNotBlank, None, None);
          ("description", isNotBlank, Some "Description is required", None)]
         [("name", VStr "")] "Test" (num "5") plainContext quietWorld) =
  Ok [mkValidationItem
        ("Empty or invalid entry for name: " ++ dquote ++ dquote)
        "Test" (Some (num "5"));
      mkValidationItem "Description is required" "Test" (Some (num "5"))].
Proof. vm_compute. reflexivity. Qed.

(** The example of the specification: amount 50 in the record, 30 in the
    one matching summary. *)
Example cumulative_example :
  cumulativeAmountIsEqual (H := plainHost) "amount" anySummary (num "80")
    amountRecord (contextWithSummaries [summary30]) quietWorld =
    (Ok true, quietWorld) /\
  cumulativeAmountIsEqual (H := plainHost) "amount" anySummary (num "79.99")
    amountRecord (contextWithSummaries [summary30]) quietWorld =
    (Ok false, quietWorld).
Proof. split; vm_compute; reflexivity. Qed.

(** With a first summary that holds no number the record's own 50 is lost:
    the check passes at 30 and fails at 80. *)
Lemma cumulative_restart_witness :
  (periodSummaries (contextWithSummaries [brokenSummary; summary30]) =
     Some ([] ++ brokenSummary :: [summary30])%list /\
   anySummary brokenSummary = true /\
   ToNumber (get brokenSummary ("current_" ++ "amount")) = NaN) /\
  cumulativeAmountIsEqual (H := plainHost) "amount" anySummary (num "30")
    amountRecord (contextWithSummaries [brokenSummary; summary30]) quietWorld =
    (Ok true, quietWorld) /\
  cumulativeAmountIsEqual (H := plainHost) "amount" anySummary (num "80")
    amountRecord (contextWithSummaries [brokenSummary; summary30]) quietWorld =
    (Ok false, quietWorld).
Proof.
  split; [repeat split|]. split.
  - rewrite (cumulative_sum_restarts_at_non_numeric_summary
               (H := plainHost) "amount" anySummary (num "30") amountRecord
               (contextWithSummaries [brokenSummary; summary30])
               [] brokenSummary [summary30] quietWorld
               eq_refl eq_refl eq_refl).
    vm_compute. reflexivity.
  - rewrite (cumulative_sum_restarts_at_non_numeric_summary
               (H := plainHost) "amount" anySummary (num "80") amountRecord
               (contextWithSummaries [brokenSummary; summary30])
               [] brokenSummary [summary30] quietWorld
               eq_refl eq_refl eq_refl).
    vm_compute. reflexivity.
Defined.

(** A catalog of 150 findings followed by one of 3: the output is the first
    100 of the former, then the 3 of the latter. *)
Lemma truncation_witness :
  validateData (H := plainHost) [tab150; tab3] [] None samplePeriod None
    quietWorld =
  (Ok (findingsForRows 2 100 ++ findingsForRows 2 3)%list, quietWorld).
Proof.
  apply (proj1 (per_tab_truncation_before_flattening (H := plainHost)
                  [tab150; tab3] [] None samplePeriod None quietWorld
                  (findingsForRows 2 100 ++ findingsForRows 2 3)%list
                  quietWorld)).
  eexists _, quietWorld, [findingsForRows 2 150; findingsForRows 2 3].
  split; [reflexivity|]. split; [|reflexivity].
  eapply runs_cons; [reflexivity|].
  eapply runs_cons; [reflexivity|].
  apply runs_nil.
Defined.

Lemma leading_zeros_witness :
  (fileParts (contextWithFilePart "projectId" "7") =
     Some [("projectId", "7")] /\
   lookup "projectId" [("projectId", "7")] = Some "7") /\
  matchesFilePart (H := plainHost) "projectId" (VStr "007") []
    (contextWithFilePart "projectId" "7") quietWorld =
    (Ok true, quietWorld) /\
  matchesFilePart (H := plainHost) "projectId" (VStr "7") []
    (contextWithFilePart "projectId" "0007") quietWorld =
    (Ok true, quietWorld) /\
  matchesFilePart (H := plainHost) "projectId" (VStr "0070") []
    (contextWithFilePart "projectId" "7") quietWorld =
    (Ok false, quietWorld) /\
  matchesFilePart (H := plainHost) "projectId" (VStr "OMB") []
    (contextWithFilePart "projectId" "DOH") quietWorld =
    (Ok false, quietWorld).
Proof.
  split; [now split|]. split; [|split; [|split]].
  - exact (proj1 (proj2 (matchesFilePart_ignores_leading_zeros
                           (H := plainHost) "projectId" (VStr "007") []
                           (contextWithFilePart "projectId" "7")
                           [("projectId", "7")] "7" quietWorld
                           eq_refl eq_refl))
                 2%nat 0%nat "7" "7" eq_refl eq_refl eq_refl eq_refl).
  - exact (eq_trans
             (proj2 (proj2 (matchesFilePart_ignores_leading_zeros
                              (H := plainHost) "projectId" (VStr "7") []
                              (contextWithFilePart "projectId" "7")
                              [("projectId", "7")] "7" quietWorld
                              eq_refl eq_refl))
                    0%nat 3%nat "7" []
                    (contextWithFilePart "projectId" "0007")
                    [("projectId", "0007")] eq_refl eq_refl eq_refl)
             (proj1 (proj2 (matchesFilePart_ignores_leading_zeros
                              (H := plainHost) "projectId" (VStr "7") []
                              (contextWithFilePart "projectId" "7")
                              [("projectId", "7")] "7" quietWorld
                              eq_refl eq_refl))
                    0%nat 0%nat "7" "7" eq_refl eq_refl eq_refl eq_refl)).
  - exact (proj1 (proj2 (matchesFilePart_ignores_leading_zeros
                           (H := plainHost) "projectId" (VStr "0070") []
                           (contextWithFilePart "projectId" "7")
                           [("projectId", "7")] "7" quietWorld
                           eq_refl eq_refl))
                 2%nat 0%nat "70" "7" eq_refl eq_refl eq_refl eq_refl).
  - exact (proj1 (proj2 (matchesFilePart_ignores_leading_zeros
                           (H := plainHost) "projectId" (VStr "OMB") []
                           (contextWithFilePart "projectId" "DOH")
                           [("projectId", "DOH")] "DOH" quietWorld
                           eq_refl eq_refl))
                 0%nat 0%nat "OMB" "DOH" eq_refl eq_refl eq_refl eq_refl).
Defined.

Lemma sampleTabs_stable : Forall (stableTab (H := plainHost)) sampleTabs.
Proof.
  apply Forall_cons; [|apply Forall_cons; [|apply Forall_nil]].
  - apply stable_validateSingleDocument.
    apply Forall_cons; [|apply Forall_nil].
    intros val content context. apply stable_ret.
  - apply stable_validateDocuments.
    apply Forall_cons; [|apply Forall_cons; [|apply Forall_nil]].
    + apply stable_isValidState.
    + intros val content context. apply stable_ret.
Qed.

(** The same documents validated by a verbose process with a clean console
    and by a quiet one that has already printed: the same two findings. *)
Lemma determinism_witness :
  Forall (stableTab (H := plainHost)) sampleTabs /\
  sameSnapshot stateWorld laterWorld /\
  fst (validateData (H := plainHost) sampleTabs sampleDocuments None
         samplePeriod None stateWorld) =
  fst (validateData (H := plainHost) sampleTabs sampleDocuments None
         samplePeriod None laterWorld).
Proof.
  split; [exact sampleTabs_stable|]. split; [reflexivity|].
  apply (proj1 (validateData_is_deterministic (H := plainHost) sampleTabs
                  sampleDocuments None samplePeriod None sampleTabs_stable)).
  reflexivity.
Defined.

Example determinism_sample_findings :
  fst (validateData (H := plainHost) sampleTabs sampleDocuments None
         samplePeriod None laterWorld) =
  Ok [mkValidationItem "cover requires exactly one row" "cover" None;
      mkValidationItem "Zip 1234 is not valid" "subrecipient" (Some (num "2"));
      mkValidationItem
        ("Empty or invalid entry for state: " ++ dquote ++ "ZZ" ++ dquote)
        "subrecipient" (Some (num "3"))].
Proof. vm_compute. reflexivity. Qed.

(** A state code given as the number 5 stops the whole run. *)
Example number_in_state_column_throws :
  fst (validateData (H := plainHost) sampleTabs
         [mkDocument "subrecipient" [("state", num "5")] (num "2")]
         None samplePeriod None stateWorld) =
  Throw (TypeError "val.toLowerCase is not a function").
Proof. vm_compute. reflexivity. Qed.

(** A rule tagged X whose predicate would throw: skipped under no tags, an
    empty tag list or the tag Y; evaluated under X. *)
Lemma tag_gate_witness :
  validateFields (H := plainHost) [("state", isValidState, None, taggedX)]
    [("state", num "5")] "cover" (num "2") (contextWithTags None) stateWorld =
    (Ok [], stateWorld) /\
  validateFields (H := plainHost) [("state", isValidState, None, taggedX)]
    [("state", num "5")] "cover" (num "2") (contextWithTags (Some []))
    stateWorld = (Ok [], stateWorld) /\
  validateFields (H := plainHost) [("state", isValidState, None, taggedX)]
    [("state", num "5")] "cover" (num "2") (contextWithTags (Some ["Y"]))
    stateWorld = (Ok [], stateWorld) /\
  fst (validateFields (H := plainHost) [("state", isValidState, None, taggedX)]
         [("state", num "5")] "cover" (num "2")
         (contextWithTags (Some ["Y"; "X"])) stateWorld) =
    Throw (TypeError "val.toLowerCase is not a function") /\
  fst (validateFields (H := plainHost) [("state", isValidState, None, None)]
         [("state", num "5")] "cover" (num "2") (contextWithTags None)
         stateWorld) =
    Throw (TypeError "val.toLowerCase is not a function").
Proof.
  split; [|split; [|split; [|split]]].
  - exact (eq_trans
             (proj2 (tag_filtering_gate (H := plainHost) "state" isValidState
                       None taggedX [] [("state", num "5")] "cover" (num "2")
                       (contextWithTags None) stateWorld))
             eq_refl).
  - exact (eq_trans
             (proj2 (tag_filtering_gate (H := plainHost) "state" isValidState
                       None taggedX [] [("state", num "5")] "cover" (num "2")
                       (contextWithTags (Some [])) stateWorld))
             eq_refl).
  - exact (eq_trans
             (proj2 (tag_filtering_gate (H := plainHost) "state" isValidState
                       None taggedX [] [("state", num "5")] "cover" (num "2")
                       (contextWithTags (Some ["Y"])) stateWorld))
             eq_refl).
  - rewrite (proj2 (tag_filtering_gate (H := plainHost) "state" isValidState
                      None taggedX [] [("state", num "5")] "cover" (num "2")
                      (contextWithTags (Some ["Y"; "X"])) stateWorld)).
    vm_compute. reflexivity.
  - rewrite (proj2 (tag_filtering_gate (H := plainHost) "state" isValidState
                      None None [] [("state", num "5")] "cover" (num "2")
                      (contextWithTags None) stateWorld)).
    vm_compute. reflexivity.
Defined.

(** No record, and two records whose state code would make the rule throw:
    one finding without a row.  One record: the rule runs, with row 2. *)
Lemma single_record_witness :
  validateSingleDocument (H := plainHost) "cover" stateRules
    "cover requires exactly one row" [] plainContext stateWorld =
    (Ok [mkValidationItem "cover requires exactly one row" "cover" None],
     stateWorld) /\
  validateSingleDocument (H := plainHost) "cover" stateRules
    "cover requires exactly one row"
    [("cover", [numericState "2"; numericState "3"])] plainContext stateWorld =
    (Ok [mkValidationItem "cover requires exactly one row" "cover" None],
     stateWorld) /\
  fst (validateSingleDocument (H := plainHost) "cover" stateRules
         "cover requires exactly one row"
         [("cover", [mkDocument "cover" [("state", VStr "TX")] (num "7")])]
         plainContext stateWorld) =
    Ok [mkValidationItem
          ("Empty or invalid entry for state: " ++ dquote ++ "TX" ++ dquote)
          "cover" (Some (num "2"))].
Proof.
  split; [|split].
  - apply (proj1 (single_record_cardinality (H := plainHost) "cover"
                    stateRules "cover requires exactly one row" []
                    plainContext stateWorld)).
    discriminate.
  - apply (proj1 (single_record_cardinality (H := plainHost) "cover"
                    stateRules "cover requires exactly one row"
                    [("cover", [numericState "2"; numericState "3"])]
                    plainContext stateWorld)).
    discriminate.
  - rewrite (proj2 (single_record_cardinality (H := plainHost) "cover"
                      stateRules "cover requires exactly one row"
                      [("cover",
                        [mkDocument "cover" [("state", VStr "TX")] (num "7")])]
                      plainContext stateWorld)
               (mkDocument "cover" [("state", VStr "TX")] (num "7")) eq_refl).
    vm_compute. reflexivity.
Defined.

(** A field holding the number 0 fails [isNumber]; the message shows the
    empty string. *)
Lemma falsy_value_witness :
  ToBoolean (get [("n", num "0")] "n") = false /\
  validateFields (H := plainHost) [("n", isNumber, None, None)]
    [("n", num "0")] "Test" (num "5") plainContext quietWorld =
  (Ok [mkValidationItem
         ("Empty or invalid entry for n: " ++ dquote ++ dquote)
         "Test" (Some (num "5"))], quietWorld).
Proof.
  split; [reflexivity|].
  exact (eq_trans
           (proj1 (falsy_value_reaches_predicate_as_empty_string
                     (H := plainHost) "n" isNumber None None []
                     [("n", num "0")] "Test" (num "5") plainContext quietWorld)
                  eq_refl)
           eq_refl).
Defined.

(** With the period of performance ending on 2020-12-30, a date in 1900 is
    accepted because a date in December 2020 is; a date in 2021 is not. *)
Lemma period_of_performance_witness :
  dateIsInPeriodOfPerformance (H := plainHost) (VStr "2020-12-01") []
    (contextWithEndDate "2020-12-30") quietWorld = (Ok true, quietWorld) /\
  dateIsInPeriodOfPerformance (H := plainHost) (VStr "1900-01-01") []
    (contextWithEndDate "2020-12-30") quietWorld = (Ok true, quietWorld) /\
  dateIsInPeriodOfPerformance (H := plainHost) (VStr "2021-01-01") []
    (contextWithEndDate "2020-12-30") quietWorld = (Ok false, quietWorld) /\
  dateIsInReportingPeriod (H := plainHost) (VStr "1900-01-01") []
    (contextWithEndDate "2020-12-30") quietWorld = (Ok false, quietWorld).
Proof.
  assert (A : dateIsInPeriodOfPerformance (H := plainHost)
                (VStr "2020-12-01") [] (contextWithEndDate "2020-12-30")
                quietWorld = (Ok true, quietWorld)) by reflexivity.
  split; [exact A|]. split; [|split; reflexivity].
  exact (proj1 (proj2 (period_of_performance_has_no_lower_bound
                         (H := plainHost) (VStr "2020-12-01") []
                         (contextWithEndDate "2020-12-30") quietWorld))
               (VStr "1900-01-01") eq_refl A).
Defined.

(** * Further properties of the engine *)

Section FurtherProperties.
Context `{Host}.

(** ** Grouping *)

Lemma lookup_groupBy_push k k' d g :
  lookup k (groupBy_push k' d g) =
  if (k =? k')%string then Some (recordsOf k g ++ [d])%list else lookup k g.
Proof.
  unfold recordsOf.
  induction g as [|[k1 ds] g IH]; cbn [groupBy_push lookup].
  - destruct (String.eqb_spec k k'); reflexivity.
  - destruct (String.eqb_spec k' k1) as [->|N1]; cbn [lookup].
    + destruct (String.eqb_spec k k1) as [->|N2]; reflexivity.
    + destruct (String.eqb_spec k k1) as [->|N2].
      * destruct (String.eqb_spec k1 k') as [E|_]; [congruence|reflexivity].
      * exact IH.
Qed.

Lemma lookup_groupBy_fold tab docs : forall g,
  lookup tab (fold_left (fun g d => groupBy_push (type d) d g) docs g) =
  match lookup tab g with
  | Some ds => Some (ds ++ filter (ofType tab) docs)%list
  | None =>
      match filter (ofType tab) docs with
      | [] => None
      | ds => Some ds
      end
  end.
Proof.
  induction docs as [|d docs IH]; intros g; cbn [fold_left filter].
  - destruct (lookup tab g); [now rewrite app_nil_r | reflexivity].
  - rewrite IH, lookup_groupBy_push. unfold ofType, recordsOf.
    rewrite (String.eqb_sym (type d) tab).
    destruct (String.eqb_spec tab (type d)) as [E|N].
    + destruct (lookup tab g) as [ds|]; cbn [app].
      * now rewrite <- app_assoc.
      * reflexivity.
    + reflexivity.
Qed.

Lemma recordsOf_groupBy tab documents :
  recordsOf tab (groupBy documents) = filter (ofType tab) documents.
Proof.
  unfold recordsOf, groupBy. rewrite lookup_groupBy_fold. cbn [lookup].
  now destruct (filter (ofType tab) documents).
Qed.

(** X1. Grouping by type keeps, under each tab, exactly the documents of
    that type, in their order in the input; a tab without documents has no
    group at all, so no group is ever empty. *)
Theorem groupBy_lookup tab documents :
  lookup tab (groupBy documents) =
    match filter (ofType tab) documents with
    | [] => None
    | ds => Some ds
    end /\
  recordsOf tab (groupBy documents) = filter (ofType tab) documents /\
  lookup tab (groupBy documents) <> Some [].
Proof.
  assert (L : lookup tab (groupBy documents) =
              match filter (ofType tab) documents with
              | [] => None
              | ds => Some ds
              end).
  { unfold groupBy. now rewrite lookup_groupBy_fold. }
  split; [exact L|]. split; [apply recordsOf_groupBy|].
  rewrite L. now destruct (filter (ofType tab) documents).
Qed.

Lemma filter_idem {A} (f : A -> bool) xs : filter f (filter f xs) = filter f xs.
Proof.
  induction xs as [|x xs IH]; [reflexivity|]. cbn [filter].
  destruct (f x) eqn:E; cbn [filter]; now rewrite ?E, IH.
Qed.

Lemma validateDocuments_recordsOf tab validations g context :
  validateDocuments tab validations g context =
  flatMapM
    (fun d => validateFields validations (content d) tab (sourceRow d) context)
    (recordsOf tab g).
Proof. reflexivity. Qed.

(** X2. What a tab validator reports depends on the documents of its own
    tab only: the all-records validator and the single-record validator
    give the same outcome on the grouped input and on the grouped documents
    of that tab alone. *)
Theorem tab_validators_see_their_own_documents tab validations message
    documents context w :
  validateDocuments tab validations (groupBy documents) context w =
  validateDocuments tab validations
    (groupBy (filter (ofType tab) documents)) context w /\
  validateSingleDocument tab validations message (groupBy documents) context w =
  validateSingleDocument tab validations message
    (groupBy (filter (ofType tab) documents)) context w.
Proof.
  split.
  - now rewrite !validateDocuments_recordsOf, !recordsOf_groupBy, filter_idem.
  - unfold validateSingleDocument, groupBy.
    now rewrite !lookup_groupBy_fold, filter_idem.
Qed.

Lemma flatMapM_app {A B} (f : A -> M (list B)) xs ys w :
  flatMapM f (xs ++ ys) w = thenAppend (flatMapM f xs) (flatMapM f ys) w.
Proof.
  revert w. induction xs as [|x xs IH]; intros w; cbn [app flatMapM].
  - unfold thenAppend, bind, ret.
    now destruct (flatMapM f ys w) as [[zs|e] w'].
  - unfold thenAppend, bind, ret in *.
    destruct (f x w) as [[us|e] w1]; [|reflexivity].
    rewrite IH.
    destruct (flatMapM f xs w1) as [[vs|e] w2]; [|reflexivity].
    destruct (flatMapM f ys w2) as [[zs|e] w3]; [|reflexivity].
    now rewrite app_assoc.
Qed.

(** X3. Validating the documents of a tab is compositional in the input:
    for two batches of documents put one after the other, the findings are
    those of the first batch followed by those of the second, the second
    run starting in the world the first one left (and not at all when the
    first one throws). *)
Theorem validateDocuments_of_appended_input tab validations documents1
    documents2 context w :
  validateDocuments tab validations (groupBy (documents1 ++ documents2))
    context w =
  thenAppend
    (validateDocuments tab validations (groupBy documents1) context)
    (validateDocuments tab validations (groupBy documents2) context) w.
Proof.
  rewrite !validateDocuments_recordsOf, !recordsOf_groupBy, filter_app.
  apply flatMapM_app.
Qed.

(** ** The executor over a list of rules *)

Lemma forEachField_app rules1 rules2 content tabName rowNumber context :
  forall valog w,
  forEachField (rules1 ++ rules2) content tabName rowNumber context valog w =
  (valog' <- forEachField rules1 content tabName rowNumber context valog ;;
   forEachField rules2 content tabName rowNumber context valog') w.
Proof.
  induction rules1 as [|rule rules1 IH]; intros valog w;
    cbn [app forEachField]; [reflexivity|].
  unfold bind.
  destruct (validateField rule content tabName rowNumber context valog w)
    as [[v|e] w1]; [|reflexivity].
  now rewrite IH.
Qed.

(** X4. Validating a record against two rule lists put one after the other
    gives the findings of the first list followed by those of the second,
    the second list being evaluated in the world the first one left; when
    a rule of the first list throws, the second list is not evaluated. *)
Theorem validateFields_of_appended_rules rules1 rules2 content tabName
    rowNumber context w :
  validateFields (rules1 ++ rules2) content tabName rowNumber context w =
  thenAppend (validateFields rules1 content tabName rowNumber context)
             (validateFields rules2 content tabName rowNumber context) w.
Proof.
  unfold validateFields. rewrite forEachField_app.
  unfold thenAppend, bind, ret.
  destruct (forEachField rules1 content tabName rowNumber context [] w)
    as [[v|e] w1]; [|reflexivity].
  apply forEachField_valog.
Qed.

(** X5. [validateFields] reports at most one finding per rule, and every
    finding carries the tab and the row number it was called with. *)
Theorem validateFields_findings_bounded_and_attributed rules content tabName
    rowNumber context : forall w findings w',
  validateFields rules content tabName rowNumber context w = (Ok findings, w') ->
  (List.length findings <= List.length rules)%nat /\
  Forall (fun f => tab f = tabName /\ row f = Some rowNumber) findings.
Proof.
  induction rules as [|[[[key validator] message] options] rules IH];
    intros w findings w' E.
  - injection E as <- <-. split; [apply Nat.le_refl | constructor].
  - pose proof (eq_trans
                  (eq_sym (validateFields_cons key validator message options
                             rules content tabName rowNumber context w)) E)
      as E'.
    clear E. rename E' into E.
    destruct (includeValidator options context).
    + unfold bind, ret in E.
      destruct (validator _ content context w) as [[ok|e] w1];
        [|discriminate].
      destruct (validateFields rules content tabName rowNumber context w1)
        as [[fs|e] w2] eqn:E2; [|discriminate].
      destruct (IH _ _ _ E2) as [L A].
      injection E as <- <-. destruct ok; cbn [List.length].
      * split; [now apply Nat.le_le_succ_r | exact A].
      * split; [now apply le_n_S|].
        constructor; [now split | exact A].
    + destruct (IH _ _ _ E) as [L A].
      split; [cbn [List.length]; now apply Nat.le_le_succ_r | exact A].
Qed.

(** X7. A predicate that throws stops the record: when the rules before it
    have returned their findings and the rule is let through by the tag
    filter, [validateFields] ends with the predicate's exception; the
    findings collected so far are not returned and the rules after it are
    not evaluated. *)
Theorem validateFields_stops_at_throwing_predicate rules1 rules2 key
    validator message options content tabName rowNumber context
    w findings w1 e w2 :
  includeValidator options context = true ->
  validateFields rules1 content tabName rowNumber context w =
    (Ok findings, w1) ->
  validator (or_else (get content key) (VStr "")) content context w1 =
    (Throw e, w2) ->
  validateFields (rules1 ++ (key, validator, message, options) :: rules2)
    content tabName rowNumber context w = (Throw e, w2).
Proof.
  intros I E1 E2. unfold validateFields in *.
  rewrite forEachField_app. unfold bind at 1. rewrite E1.
  cbn [forEachField]. unfold bind at 1. unfold validateField.
  rewrite I. unfold bind. now rewrite E2.
Qed.

(** ** The orchestrator *)

Lemma runsTabs_length g c tvs : forall w rs w',
  runsTabs g c tvs w rs w' -> List.length rs = List.length tvs.
Proof.
  induction tvs as [|tv tvs IH]; intros w rs w' R.
  - now apply runsTabs_nil_inv in R as [-> _].
  - apply runsTabs_cons_inv in R as [r [rs' [w1 [-> [_ R]]]]].
    cbn [List.length]. f_equal. now apply (IH w1 rs' w').
Qed.

Lemma length_concat_take (rs : list (list ValidationItem)) :
  (List.length (List.concat (map (fun r => Lodash.take r 100) rs)) <=
   100 * List.length rs)%nat.
Proof.
  induction rs as [|r rs IH]; [apply Nat.le_refl|].
  cbn [map List.concat List.length]. rewrite length_app.
  pose proof (firstn_le_length 100 r) as L. unfold Lodash.take in *. lia.
Qed.

(** X6. The output of a run is bounded whatever the input: it holds at
    most 100 findings for each tab validator of the catalog. *)
Theorem validateData_output_bounded tabValidators documents fileParts
    reportingPeriod periodSummaries w out w' :
  validateData tabValidators documents fileParts reportingPeriod
    periodSummaries w = (Ok out, w') ->
  (List.length out <= 100 * List.length tabValidators)%nat.
Proof.
  unfold validateData. unfold bind at 1.
  destruct (buildContext (groupBy documents) fileParts reportingPeriod
              periodSummaries w) as [[ctx|e] w1]; [|discriminate].
  intros E.
  apply (flatMapM_runs (fun findings => Lodash.take findings 100)) in E.
  destruct E as [rs [R ->]].
  rewrite <- (runsTabs_length _ _ _ _ _ _ R). apply length_concat_take.
Qed.

(** X8. A reporting-period date that date-fns rejects stops the run before
    any tab validator is called: the run ends with that exception and
    leaves the world as it found it, whatever the catalog and the
    documents.  The three dates are formatted in the order start, end,
    period-of-performance end. *)
Theorem validateData_rejects_invalid_period_dates tabValidators documents
    fileParts reportingPeriod periodSummaries e w :
  (date_fns_format (start_date reportingPeriod) "yyyy-MM-dd" = Throw e ->
   validateData tabValidators documents fileParts reportingPeriod
     periodSummaries w = (Throw e, w)) /\
  (forall s,
   date_fns_format (start_date reportingPeriod) "yyyy-MM-dd" = Ok s ->
   date_fns_format (end_date reportingPeriod) "yyyy-MM-dd" = Throw e ->
   validateData tabValidators documents fileParts reportingPeriod
     periodSummaries w = (Throw e, w)) /\
  (forall s s',
   date_fns_format (start_date reportingPeriod) "yyyy-MM-dd" = Ok s ->
   date_fns_format (end_date reportingPeriod) "yyyy-MM-dd" = Ok s' ->
   date_fns_format (period_of_performance_end_date reportingPeriod)
     "yyyy-MM-dd" = Throw e ->
   validateData tabValidators documents fileParts reportingPeriod
     periodSummaries w = (Throw e, w)).
Proof.
  unfold validateData, buildContext, bind, lift.
  split; [|split].
  - now intros ->.
  - now intros s -> ->.
  - now intros s s' -> -> ->.
Qed.

(** X9. A tab validator that throws stops the run: when the context builds
    and the validators before it have returned, the run ends with its
    exception, and the findings of the earlier tabs are not returned. *)
Theorem validateData_stops_at_throwing_tab tabValidators1 tabValidator
    tabValidators2 documents fileParts reportingPeriod periodSummaries
    w validateContext w1 rs w2 e w3 :
  buildContext (groupBy documents) fileParts reportingPeriod periodSummaries w =
    (Ok validateContext, w1) ->
  runsTabs (groupBy documents) validateContext tabValidators1 w1 rs w2 ->
  tabValidator (groupBy documents) validateContext w2 = (Throw e, w3) ->
  validateData (tabValidators1 ++ tabValidator :: tabValidators2) documents
    fileParts reportingPeriod periodSummaries w = (Throw e, w3).
Proof.
  intros B R T. unfold validateData. unfold bind at 1. rewrite B.
  pose (f := fun tv : TabValidator =>
               findings <- tv (groupBy documents) validateContext ;;
               ret (Lodash.take findings 100)).
  change (flatMapM f (tabValidators1 ++ tabValidator :: tabValidators2) w1 =
          (Throw e, w3)).
  assert (E : flatMapM f tabValidators1 w1 =
              (Ok (List.concat (map (fun r => Lodash.take r 100) rs)), w2)).
  { apply (flatMapM_runs (fun findings => Lodash.take findings 100)).
    now exists rs. }
  rewrite flatMapM_app. unfold thenAppend. unfold bind at 1. rewrite E.
  cbn [flatMapM]. unfold bind at 1. unfold bind at 1. unfold f at 1.
  unfold bind at 1. now rewrite T.
Qed.

(** ** The two document-set validators *)

Lemma lookup_singleton {A} tabName (v : A) :
  lookup tabName [(tabName, v)] = Some v.
Proof. cbn. now rewrite String.eqb_refl. Qed.

(** X10. On a tab with exactly one record the single-record validator does
    what the all-records validator does on that record renumbered to row
    2: the record's own source row is never reported. *)
Theorem validateSingleDocument_is_validateDocuments_at_row_two tabName
    validations message groupedDocuments d context w :
  lookup tabName groupedDocuments = Some [d] ->
  validateSingleDocument tabName validations message groupedDocuments
    context w =
  validateDocuments tabName validations [(tabName, [atRowTwo d])] context w.
Proof.
  intros L. unfold validateSingleDocument, validateDocuments.
  rewrite L, lookup_singleton. cbn [flatMapM atRowTwo content sourceRow].
  unfold bind, ret.
  destruct (validateFields validations (content d) tabName (VNum (of_Z 2))
              context w) as [[fs|e] w1]; [|reflexivity].
  now rewrite app_nil_r.
Qed.

(** ** The dropdown table *)

(** Case analysis on the eight bits of a character. *)
Ltac each_ascii c := destruct c as [[] [] [] [] [] [] [] []].

Lemma lower_idem c : lower (lower c) = lower c.
Proof. each_ascii c; reflexivity. Qed.

Lemma toLowerCase_idem s : toLowerCase (toLowerCase s) = toLowerCase s.
Proof.
  induction s as [|c s IH]; [reflexivity|].
  cbn [toLowerCase]. now rewrite lower_idem, IH.
Qed.

(** X11. While the dropdown table is not initialised the lookup fails
    closed for every value, numbers included: [dropdownIncludes] returns
    false and writes one diagnostic line, and a rule on [isValidState]
    reports its finding instead of throwing. *)
Theorem uninitialised_dropdowns_fail_closed listName key message val content
    tabName rowNumber context v lines :
  dropdownIncludes listName val (mkWorld None v lines) =
    (Ok false,
     mkWorld None v
       (lines ++
        [("DROPDOWN VALUES NOT INITIALIZED!! (" ++ listName ++ ")")%string])%list)
  /\
  fst (validateFields [(key, isValidState, message, None)] content tabName
         rowNumber context (mkWorld None v lines)) =
    Ok [ruleFinding key message None (or_else (get content key) (VStr ""))
          tabName rowNumber].
Proof.
  split; [reflexivity|].
  rewrite (validateFields_cons key isValidState message None []).
  cbn [includeValidator]. unfold isValidState, bind, log. cbn [verbose].
  destruct v; reflexivity.
Qed.

(** X12. With the table loaded, a string is looked up in lower case: the
    answer is membership of the lower-cased value in the named list, so it
    does not depend on the case of the value; a list name the table does
    not have gives false. *)
Theorem dropdownIncludes_ignores_case listName s all v lines :
  fst (dropdownIncludes listName (VStr s) (mkWorld (Some all) v lines)) =
    Ok (Lodash.includes
          (match lookup listName all with Some vs => vs | None => [] end)
          (toLowerCase s)) /\
  fst (dropdownIncludes listName (VStr (toLowerCase s))
         (mkWorld (Some all) v lines)) =
  fst (dropdownIncludes listName (VStr s) (mkWorld (Some all) v lines)) /\
  (lookup listName all = None ->
   fst (dropdownIncludes listName (VStr s) (mkWorld (Some all) v lines)) =
     Ok false).
Proof.
  assert (E : forall t,
    fst (dropdownIncludes listName (VStr t) (mkWorld (Some all) v lines)) =
    Ok (Lodash.includes
          (match lookup listName all with Some vs => vs | None => [] end)
          (toLowerCase t))).
  { intros t. unfold dropdownIncludes, bind, log. cbn [verbose].
    destruct v; reflexivity. }
  split; [apply E|]. split.
  - now rewrite !E, toLowerCase_idem.
  - intros N. now rewrite E, N.
Qed.

(** ** Zip codes *)

Lemma read_n_digits_spec n : forall s rest,
  read_n_digits n s = Some rest <->
  exists a, s = a ++ rest /\ String.length a = n /\ allDigits a = true.
Proof.
  induction n as [|n IH]; intros s rest; cbn [read_n_digits].
  - split.
    + intros E. injection E as <-. now exists "".
    + intros [a [-> [L _]]]. now destruct a.
  - destruct s as [|c s].
    + split; [discriminate|].
      intros [a [E [L _]]]. destruct a; discriminate.
    + split.
      * destruct (digit_val 10 c) eqn:D; [|discriminate].
        intros E. apply IH in E. destruct E as [a [-> [L A]]].
        exists (String c a). cbn. rewrite D. now rewrite L.
      * intros [a [E [L A]]]. destruct a as [|c' a]; [discriminate|].
        cbn in E, L, A. injection E as <- ->. injection L as L.
        destruct (digit_val 10 c); [|discriminate].
        apply IH. now exists a.
Qed.

Lemma string_app_nil_r (s : string) : s ++ "" = s.
Proof. induction s as [|c s IH]; [reflexivity | cbn; now rewrite IH]. Qed.

(** X13. [isValidZip] accepts exactly the values whose text is five decimal
    digits, optionally followed by a hyphen and four more digits; anything
    before, between or after them makes it fail. *)
Theorem isValidZip_accepts_five_or_nine_digits val content context w :
  isValidZip val content context w = (Ok true, w) <->
  exists a b,
    ToString val = a ++ b /\ String.length a = 5%nat /\ allDigits a = true /\
    (b = "" \/
     exists c, b = String "-" c /\ String.length c = 4%nat /\
               allDigits c = true).
Proof.
  unfold isValidZip, ret. split.
  - destruct (read_n_digits 5 (ToString val)) as [b|] eqn:R; [|discriminate].
    apply read_n_digits_spec in R. destruct R as [a [E [L A]]].
    destruct b as [|ch rest].
    + intros _. exists a, "". repeat split; auto.
    + intros T. exists a, (String ch rest).
      split; [exact E|]. split; [exact L|]. split; [exact A|]. right.
      each_ascii ch; try discriminate T.
      destruct (read_n_digits 4 rest) as [[|x r]|] eqn:R4;
        try discriminate T.
      apply read_n_digits_spec in R4. destruct R4 as [c [E4 [L4 A4]]].
      rewrite string_app_nil_r in E4. subst c.
      exists rest. now repeat split.
  - intros [a [b [E [L [A B]]]]].
    assert (R : read_n_digits 5 (ToString val) = Some b).
    { apply read_n_digits_spec. now exists a. }
    rewrite R. destruct B as [->|[c [-> [Lc Ac]]]]; [reflexivity|].
    assert (R4 : read_n_digits 4 c = Some "").
    { apply read_n_digits_spec. exists c.
      now rewrite string_app_nil_r. }
    cbn -[read_n_digits]. now rewrite R4.
Qed.

(** ** Messages *)

Lemma split_at_first_placeholder a b :
  hasPlaceholder a = false ->
  split_at_first "{}" (a ++ "{}" ++ b) = Some (a, b).
Proof.
  unfold hasPlaceholder.
  induction a as [|c a IH]; intros N; [now destruct b|].
  cbn [split_at_first] in N.
  destruct (prefix "{}" (String c a)) eqn:P; [discriminate|].
  destruct (split_at_first "{}" a) as [[bf af]|] eqn:S; [discriminate|].
  specialize (IH eq_refl).
  cbn [append split_at_first].
  assert (P' : prefix "{}" (String c (a ++ "{}" ++ b)) = false).
  { cbn [prefix] in *. destruct (ascii_dec "{" c); [|reflexivity].
    destruct a as [|c2 a]; [reflexivity|].
    cbn [append prefix] in *. destruct (ascii_dec "}" c2); [|reflexivity].
    destruct a; discriminate P. }
  cbn [append] in IH, P'. now rewrite P', IH.
Qed.

Lemma getSubstitution_plain_prefix matched before after u : forall r,
  noDollar u = true ->
  getSubstitution matched before after (u ++ r) =
  u ++ getSubstitution matched before after r.
Proof.
  induction u as [|c u IH]; intros r N; [reflexivity|].
  cbn [noDollar] in N. apply andb_prop in N as [N1 N2].
  specialize (IH r N2). cbn [append].
  each_ascii c; try discriminate N1; cbn [getSubstitution]; now rewrite IH.
Qed.

Lemma getSubstitution_plain matched before after v :
  noDollar v = true -> getSubstitution matched before after v = v.
Proof.
  intros N.
  pose proof (getSubstitution_plain_prefix matched before after v "" N) as E.
  cbn [getSubstitution] in E. now rewrite !string_app_nil_r in E.
Qed.

(** X14. A template without the placeholder is the message as it stands.
    In a template with placeholders the first one, and only the first, is
    replaced: by the text of the value (nothing for a falsy value) when that
    text holds no dollar sign. *)
Theorem addValueToMessage_fills_first_placeholder message a b value :
  (hasPlaceholder message = false ->
   addValueToMessage message value = message) /\
  (hasPlaceholder a = false ->
   noDollar (ToString (or_else value (VStr ""))) = true ->
   addValueToMessage (a ++ "{}" ++ b) value =
   a ++ ToString (or_else value (VStr "")) ++ b).
Proof.
  unfold addValueToMessage, replace. split.
  - unfold hasPlaceholder.
    now destruct (split_at_first "{}" message) as [[bf af]|].
  - intros P N. rewrite (split_at_first_placeholder a b P).
    now rewrite (getSubstitution_plain _ _ _ _ N).
Qed.

(** X15. The text of the value is used as a replacement pattern of
    [String.prototype.replace]: inside a value, [$$] is shown as one dollar
    sign, [$&] as the placeholder itself, [$`] as the part of the template
    before the placeholder and [$'] as the part after it. *)
Theorem addValueToMessage_expands_dollar_patterns a b u v :
  hasPlaceholder a = false ->
  noDollar u = true ->
  noDollar v = true ->
  addValueToMessage (a ++ "{}" ++ b) (VStr (u ++ "$$" ++ v)) =
    a ++ (u ++ "$" ++ v) ++ b /\
  addValueToMessage (a ++ "{}" ++ b) (VStr (u ++ "$&" ++ v)) =
    a ++ (u ++ "{}" ++ v) ++ b /\
  addValueToMessage (a ++ "{}" ++ b) (VStr (u ++ "$`" ++ v)) =
    a ++ (u ++ a ++ v) ++ b /\
  addValueToMessage (a ++ "{}" ++ b) (VStr (u ++ "$'" ++ v)) =
    a ++ (u ++ b ++ v) ++ b.
Proof.
  intros P Nu Nv. unfold addValueToMessage, replace.
  rewrite !ToString_or_else_string, (split_at_first_placeholder a b P).
  rewrite !(getSubstitution_plain_prefix _ _ _ u _ Nu).
  cbn [append getSubstitution]. cbn.
  now rewrite !(getSubstitution_plain _ _ _ v Nv).
Qed.

(** ** Conditional combinators *)

(** X16. [whenBlank] and [whenNotBlank] on the same column split the
    records in two: on every record exactly one of them hands over to the
    wrapped predicate and the other answers true without evaluating it;
    wrapping one in the other gives a rule that is true on every record and
    never evaluates the predicate. *)
Theorem blank_guards_are_complementary key validator val content context w :
  ((whenBlank key validator val content context w =
      validator val content context w /\
    whenNotBlank key validator val content context w = (Ok true, w) /\
    ToBoolean (get content key) = false) \/
   (whenBlank key validator val content context w = (Ok true, w) /\
    whenNotBlank key validator val content context w =
      validator val content context w /\
    ToBoolean (get content key) = true)) /\
  whenBlank key (whenNotBlank key validator) val content context w =
    (Ok true, w) /\
  whenNotBlank key (whenBlank key validator) val content context w =
    (Ok true, w).
Proof.
  unfold whenBlank, whenNotBlank.
  destruct (ToBoolean (get content key)); cbn; auto.
Qed.

(** X17. [whenUS] hands over to the wrapped predicate only when the column
    holds exactly the string [usa] or [united states]; for every other
    value, other spellings and capitalisations included, it answers true
    without evaluating the predicate. *)
Theorem whenUS_matches_two_exact_strings key validator val content context w :
  (get content key = VStr "usa" \/ get content key = VStr "united states" ->
   whenUS key validator val content context w =
   validator val content context w) /\
  (get content key <> VStr "usa" ->
   get content key <> VStr "united states" ->
   whenUS key validator val content context w = (Ok true, w)).
Proof.
  unfold whenUS, isUnitedStates, loose_eq_string. split.
  - intros [->| ->]; reflexivity.
  - intros N1 N2. destruct (get content key) as [| | | |t]; try reflexivity.
    destruct (String.eqb_spec t "usa") as [->|_]; [now elim N1|].
    destruct (String.eqb_spec t "united states") as [->|_]; [now elim N2|].
    reflexivity.
Qed.

(** ** Tags *)

(** X18. Activating more tags never switches a rule off: a rule that is
    let through under the tags of one context is let through under every
    context whose tags include them. *)
Theorem includeValidator_monotone_in_context_tags options context context'
    active active' :
  tags context = Some active ->
  tags context' = Some active' ->
  incl active active' ->
  includeValidator options context = true ->
  includeValidator options context' = true.
Proof.
  intros E E' I A. apply includeValidator_spec in A.
  apply includeValidator_spec. unfold ruleApplies in *.
  destruct (declaredTags options) as [ruleTags|]; [|exact A].
  rewrite E in A. rewrite E'. destruct A as [t [I1 I2]].
  exists t. split; [assumption | now apply I].
Qed.

(** ** Numeric comparisons *)

Lemma SFcompare_antisym x y :
  SFcompare y x =
  match SFcompare x y with
  | Some c => Some (CompOpp c)
  | None => None
  end.
Proof.
  destruct x as [s|s| |s m e], y as [t|t| |t n f]; cbn;
    try (destruct s); try (destruct t); try reflexivity.
  - rewrite (Z.compare_antisym f e).
    destruct (f ?= e)%Z; cbn; try reflexivity.
    rewrite (Pos.compare_cont_antisym m n Eq). reflexivity.
  - rewrite (Z.compare_antisym f e).
    destruct (f ?= e)%Z; cbn; try reflexivity.
    rewrite (Pos.compare_cont_antisym m n Eq). reflexivity.
Qed.

Lemma SFcompare_nan x y :
  SFcompare x y = None <-> is_nan x = true \/ is_nan y = true.
Proof.
  destruct x as [s|s| |s m e], y as [t|t| |t n f]; cbn;
    try (destruct s); try (destruct t);
    (split; [try discriminate; auto | intros [D|D]; try discriminate D; auto]).
Qed.

(** X19. [numberIsLessThanOrEqual] and [numberIsGreaterThanOrEqual] compare
    numbers only: when the value or the other column is not a number
    (a numeric string, an absent cell) both fail, and so they do when one
    of the two is NaN.  On two numbers that are not NaN at least one of
    them holds, and both hold exactly when the numbers are equal. *)
Theorem number_comparisons_are_total_on_numbers_only key val content
    context w :
  (Lodash.isNumber val = false \/ Lodash.isNumber (get content key) = false ->
   numberIsLessThanOrEqual key val content context w = (Ok false, w) /\
   numberIsGreaterThanOrEqual key val content context w = (Ok false, w)) /\
  (forall x y, val = VNum x -> get content key = VNum y ->
   (is_nan x = true \/ is_nan y = true ->
    numberIsLessThanOrEqual key val content context w = (Ok false, w) /\
    numberIsGreaterThanOrEqual key val content context w = (Ok false, w)) /\
   (is_nan x = false -> is_nan y = false ->
    (numberIsLessThanOrEqual key val content context w = (Ok true, w) \/
     numberIsGreaterThanOrEqual key val content context w = (Ok true, w)) /\
    ((numberIsLessThanOrEqual key val content context w = (Ok true, w) /\
      numberIsGreaterThanOrEqual key val content context w = (Ok true, w)) <->
     num_eqb x y = true))).
Proof.
  unfold numberIsLessThanOrEqual, numberIsGreaterThanOrEqual, ret. split.
  - intros [E|E]; rewrite E; [|rewrite !andb_false_r]; now split.
  - intros x y -> ->. cbn [Lodash.isNumber ToNumber andb].
    unfold num_leb, num_eqb, SFleb, SFeqb. rewrite (SFcompare_antisym x y).
    split.
    + intros N. apply SFcompare_nan in N. rewrite N. now split.
    + intros Nx Ny.
      destruct (SFcompare x y) as [[| |]|] eqn:C; cbn.
      * split; [now left|]. now split.
      * split; [now left|]. split; [intros [_ D]; discriminate D | discriminate].
      * split; [now right|]. split; [intros [D _]; discriminate D | discriminate].
      * apply SFcompare_nan in C. destruct C; congruence.
Qed.

(** ** Date bounds *)

(** X20. The reporting period is an interval of formatted dates: when its
    start is after its end no value is accepted, and when its end is not
    after the period-of-performance end date every value accepted by
    [dateIsInReportingPeriod] is accepted by [dateIsInPeriodOfPerformance]. *)
Theorem reporting_period_is_an_interval val content context rp w :
  reportingPeriod context = Some rp ->
  (String.leb (startDate rp) (endDate rp) = false ->
   dateIsInReportingPeriod val content context w = (Ok false, w)) /\
  (String.leb (endDate rp) (periodOfPerformanceEndDate rp) = true ->
   dateIsInReportingPeriod val content context w = (Ok true, w) ->
   dateIsInPeriodOfPerformance val content context w = (Ok true, w)).
Proof.
  intros E. unfold dateIsInReportingPeriod, dateIsInPeriodOfPerformance, ret.
  rewrite E. split.
  - intros N.
    destruct (String.leb (startDate rp) (ssf_format "yyyy-MM-dd" val)) eqn:L1;
      [|reflexivity].
    destruct (String.leb (ssf_format "yyyy-MM-dd" val) (endDate rp)) eqn:L2;
      [|reflexivity].
    rewrite (string_leb_trans _ _ _ L1 L2) in N. discriminate.
  - intros L A. injection A as A. apply andb_prop in A as [_ L2].
    now rewrite (string_leb_trans _ _ _ L2 L).
Qed.

(** ** Sums and equality of amounts *)

Lemma num_add_plus_zero acc :
  sameUpToZeroSign (num_add acc (S754_zero false)) acc.
Proof.
  destruct acc as [s|s| |s m e]; cbn; try (now left).
  right. destruct s; eauto.
Qed.

Lemma isSum_step_zero_sign content acc acc' c :
  sameUpToZeroSign acc acc' ->
  sameUpToZeroSign (isSum_step content acc c) (isSum_step content acc' c).
Proof.
  intros E. unfold isSum_step.
  destruct (negb (ToBoolean c)); [exact E|]. now apply num_add_zero_sign.
Qed.

Lemma fold_isSum_zero_sign content columns : forall acc acc',
  sameUpToZeroSign acc acc' ->
  sameUpToZeroSign (fold_left (isSum_step content) columns acc)
                   (fold_left (isSum_step content) columns acc').
Proof.
  induction columns as [|c columns IH]; intros acc acc' E; [exact E|].
  cbn [fold_left]. apply IH. now apply isSum_step_zero_sign.
Qed.

(** X21. A column adds nothing to the sum of [isSum], wherever it stands in
    the list, when its name is falsy or when its cell does not parse to a
    number other than zero (an absent cell, text, an empty string): the
    answer is the one for the list without that column. *)
Theorem isSum_ignores_empty_columns columns1 c columns2 val content
    context w :
  ToBoolean c = false \/
  num_truthy (parseFloat (get content (ToString c))) = false ->
  isSum (columns1 ++ c :: columns2) val content context w =
  isSum (columns1 ++ columns2) val content context w.
Proof.
  intros D. unfold isSum, ret. f_equal. f_equal.
  apply num_eqb_zero_sign, round_zero_sign.
  rewrite !fold_left_app. cbn [fold_left].
  apply fold_isSum_zero_sign. unfold isSum_step at 1.
  destruct (ToBoolean c) eqn:T; cbn [negb].
  - destruct D as [D|D]; [discriminate|].
    unfold num_or. rewrite D. apply num_add_plus_zero.
  - apply sameUpToZeroSign_refl.
Qed.

Lemma num_sub_diag x :
  is_finite x = true -> num_sub x x = S754_zero false.
Proof.
  destruct x as [s|s| |s m e]; try discriminate; intros _.
  - now destruct s.
  - unfold num_sub, SFsub. now rewrite Z.sub_diag.
Qed.

(** X22. [isEqual] accepts a value that is compared with a column holding
    the same value, whatever the value is (two cells that do not parse
    count as two zeros), with one exception: a value that parses to an
    infinity is not equal to itself. *)
Theorem isEqual_on_the_same_value column val content context w :
  get content column = val ->
  ((forall s, parseFloat val <> S754_infinity s) ->
   isEqual column val content context w = (Ok true, w)) /\
  ((exists s, parseFloat val = S754_infinity s) ->
   isEqual column val content context w = (Ok false, w)).
Proof.
  intros E0. subst val. unfold isEqual, ret. split.
  - intros N.
    assert (F : is_finite (num_or (parseFloat (get content column)) (of_Z 0))
                = true).
    { destruct (parseFloat (get content column)) as [s|s| |s m e];
        try reflexivity. now elim (N s). }
    now rewrite (num_sub_diag _ F).
  - intros [s E]. rewrite E. now destruct s.
Qed.

(** X23. When the amounts of the matching summaries are numbers (no running
    total is NaN), [cumulativeAmountIsEqual] compares the rounded value
    with the rounded sum of the record's own amount and those amounts,
    added from left to right; summaries that do not match the filter take
    no part, and with no summaries at all the value is compared with the
    record's own amount. *)
Theorem cumulativeAmountIsEqual_sums_matching_numbers key filterPredicate
    val content context summaries w :
  periodSummaries context = Some summaries ->
  neverNaN (num_or (ToNumber (get content key)) (of_Z 0))
    (map (fun s => get s ("current_" ++ key))
         (filter filterPredicate summaries)) = true ->
  cumulativeAmountIsEqual key filterPredicate val content context w =
  (Ok (num_eqb (Lodash.round val 2)
         (Lodash.round
            (VNum (plainSum (num_or (ToNumber (get content key)) (of_Z 0))
                     (map (fun s => get s ("current_" ++ key))
                          (filter filterPredicate summaries)))) 2)), w) /\
  (filter filterPredicate summaries = [] ->
   cumulativeAmountIsEqual key filterPredicate val content context w =
   (Ok (num_eqb (Lodash.round val 2)
          (Lodash.round
             (VNum (num_or (ToNumber (get content key)) (of_Z 0))) 2)), w)).
Proof.
  intros E N.
  pose proof (cumulativeAmountIsEqual_on_numbers key filterPredicate val
                content context summaries w E N) as P.
  split; [exact P|].
  intros F. rewrite P, F. reflexivity.
Qed.

(** ** Required fields and positive amounts *)

(** X24. A rule on [isNotBlank] passes exactly when the cell holds a
    non-empty string or a number other than 0 and NaN: because the executor
    hands a falsy cell over as the empty string, the numbers 0 and NaN are
    reported as blank, and so are the booleans. *)
Theorem required_field_passes_on_text_and_non_zero_numbers key message
    content tabName rowNumber context w :
  fst (validateFields [(key, isNotBlank, message, None)] content tabName
         rowNumber context w) = Ok [] <->
  (exists s, get content key = VStr s /\ s <> "") \/
  (exists x, get content key = VNum x /\ num_truthy x = true).
Proof.
  rewrite (validateFields_cons key isNotBlank message None []).
  cbn [includeValidator]. unfold isNotBlank, bind, ret, validateFields.
  cbn [forEachField fst ret]. unfold ret, or_else. cbn [fst].
  destruct (get content key) as [| |b|x|s]; cbn.
  - split; [discriminate|]. intros [[s [E _]]|[x [E _]]]; discriminate.
  - split; [discriminate|]. intros [[s [E _]]|[x [E _]]]; discriminate.
  - destruct b; cbn; (split; [discriminate|]);
      intros [[s [E _]]|[x [E _]]]; discriminate.
  - destruct (num_truthy x) eqn:T; cbn.
    + split; [intros _|reflexivity]. right. now exists x.
    + split; [discriminate|].
      intros [[s [E _]]|[y [E T']]]; [discriminate|].
      injection E as <-. congruence.
  - destruct (String.eqb_spec s "") as [->|N]; cbn.
    + split; [discriminate|].
      intros [[s [E N]]|[x [E _]]]; [|discriminate].
      injection E as <-. now elim N.
    + destruct (String.eqb_spec s "") as [->|_]; [now elim N|]. cbn.
      split; [intros _|reflexivity]. left. now exists s.
Qed.

(** X25. The positivity tests are nested: a value accepted by
    [isAtLeast50K] is accepted by [isPositiveNumber], and when the cell of
    a column is accepted by [isPositiveNumber], [whenGreaterThanZero] on
    that column hands over to the wrapped predicate. *)
Theorem positivity_tests_are_nested key validator val content context w :
  (isAtLeast50K val content context w = (Ok true, w) ->
   isPositiveNumber val content context w = (Ok true, w)) /\
  (isPositiveNumber (get content key) content context w = (Ok true, w) ->
   whenGreaterThanZero key validator val content context w =
   validator val content context w).
Proof.
  unfold isAtLeast50K, isPositiveNumber, whenGreaterThanZero, ret. split.
  - destruct val as [| |b|x|s]; cbn [Lodash.isNumber andb];
      try discriminate.
    intros E. injection E as E.
    destruct x as [s|s| |s m e]; try destruct s; try discriminate E;
      reflexivity.
  - destruct (get content key) as [| |b|x|s]; cbn [Lodash.isNumber andb];
      try discriminate.
    intros E.
    assert (G : gt_number (VNum x) (of_Z 0) = true) by (now injection E).
    now rewrite G.
Qed.

(** ** Date comparisons *)

(** X26. A value that is not a valid date fails both date comparisons,
    against every column; so does every value compared with a column that
    does not hold a valid date.  Two valid dates are always ordered one way
    or the other. *)
Theorem invalid_dates_fail_date_comparisons key val content context w :
  (isValidDate val content context w = (Ok false, w) \/
   isValidDate (get content key) content context w = (Ok false, w) ->
   dateIsOnOrBefore key val content context w = (Ok false, w) /\
   dateIsOnOrAfter key val content context w = (Ok false, w)) /\
  (isValidDate val content context w = (Ok true, w) ->
   isValidDate (get content key) content context w = (Ok true, w) ->
   dateIsOnOrBefore key val content context w = (Ok true, w) \/
   dateIsOnOrAfter key val content context w = (Ok true, w)).
Proof.
  unfold isValidDate, dateIsOnOrBefore, dateIsOnOrAfter, ret.
  cbn [Lodash.isNaN]. unfold num_leb, SFleb.
  rewrite (SFcompare_antisym (date_getTime val)
             (date_getTime (get content key))).
  split.
  - intros D.
    assert (N : SFcompare (date_getTime val)
                  (date_getTime (get content key)) = None).
    { apply SFcompare_nan.
      destruct D as [D|D]; injection D as D;
        apply negb_false_iff in D; auto. }
    rewrite N. now split.
  - intros D1 D2. injection D1 as D1. injection D2 as D2.
    apply negb_true_iff in D1, D2.
    destruct (SFcompare (date_getTime val) (date_getTime (get content key)))
      as [[| |]|] eqn:C; cbn; auto.
    apply SFcompare_nan in C. destruct C; congruence.
Qed.

(** ** Truncation *)

(** X27. Truncation loses nothing when no tab reports more than 100
    findings: the output is then the concatenation of all the findings of
    all the tabs, in catalog order. *)
Theorem validateData_keeps_everything_up_to_100 tabValidators documents
    fileParts reportingPeriod periodSummaries w validateContext w1 rs w' :
  buildContext (groupBy documents) fileParts reportingPeriod periodSummaries w =
    (Ok validateContext, w1) ->
  runsTabs (groupBy documents) validateContext tabValidators w1 rs w' ->
  Forall (fun findings => (List.length findings <= 100)%nat) rs ->
  validateData tabValidators documents fileParts reportingPeriod
    periodSummaries w = (Ok (List.concat rs), w').
Proof.
  intros B R F. unfold validateData. unfold bind at 1. rewrite B.
  apply (flatMapM_runs (fun findings => Lodash.take findings 100)).
  exists rs. split; [exact R|]. f_equal.
  clear - F. induction F as [|r rs L _ IH]; [reflexivity|].
  cbn [map]. rewrite <- IH. f_equal. unfold Lodash.take.
  symmetry. now apply firstn_all2.
Qed.

End FurtherProperties.

(** * Closed instances of the further properties *)

Lemma findings_attributed_witness :
  validateFields (H := plainHost) nameRules [("name", VStr "")] "cover"
    (num "2") plainContext quietWorld = (Ok [nameFinding "2"], quietWorld) /\
  (List.length [nameFinding "2"] <= List.length nameRules)%nat /\
  Forall (fun f => tab f = "cover" /\ row f = Some (num "2"))
    [nameFinding "2"].
Proof.
  split; [reflexivity|].
  exact (validateFields_findings_bounded_and_attributed (H := plainHost)
           nameRules [("name", VStr "")] "cover" (num "2") plainContext
           quietWorld [nameFinding "2"] quietWorld eq_refl).
Defined.

Lemma output_bound_witness :
  validateData (H := plainHost) [tab150; tab3] [] None samplePeriod None
    quietWorld =
    (Ok (findingsForRows 2 100 ++ findingsForRows 2 3)%list, quietWorld) /\
  (List.length (findingsForRows 2 100 ++ findingsForRows 2 3)%list <=
   100 * List.length [tab150; tab3])%nat.
Proof.
  split; [reflexivity|].
  exact (validateData_output_bounded (H := plainHost) [tab150; tab3] [] None
           samplePeriod None quietWorld
           (findingsForRows 2 100 ++ findingsForRows 2 3)%list quietWorld
           eq_refl).
Defined.

(** The name is blank and the state code is the number 5: the finding for
    the name is lost to the TypeError of the state rule. *)
Lemma throwing_predicate_witness :
  (includeValidator (H := plainHost) None plainContext = true /\
   validateFields (H := plainHost) nameRules nameAndStateRecord "cover"
     (num "2") plainContext laterWorld = (Ok [nameFinding "2"], laterWorld) /\
   isValidState (H := plainHost)
     (or_else (get nameAndStateRecord "state") (VStr "")) nameAndStateRecord
     plainContext laterWorld =
     (Throw (TypeError "val.toLowerCase is not a function"), laterWorld)) /\
  validateFields (H := plainHost) (nameRules ++ [stateRule])%list
    nameAndStateRecord "cover" (num "2") plainContext laterWorld =
    (Throw (TypeError "val.toLowerCase is not a function"), laterWorld).
Proof.
  split; [repeat split|].
  exact (validateFields_stops_at_throwing_predicate (H := plainHost)
           nameRules [] "state" isValidState None None nameAndStateRecord
           "cover" (num "2") plainContext laterWorld [nameFinding "2"]
           laterWorld (TypeError "val.toLowerCase is not a function")
           laterWorld eq_refl eq_refl eq_refl).
Defined.

(** The end date is missing: the run stops before the catalog is used. *)
Lemma invalid_period_witness :
  validateData (H := strictHost)
    [validateSingleDocument (H := strictHost) "cover" []
       "cover requires exactly one row"]
    [] None openEndedPeriod None quietWorld =
  (Throw (RangeError "Invalid time value"), quietWorld).
Proof.
  exact (proj1 (proj2 (validateData_rejects_invalid_period_dates
                         (H := strictHost)
                         [validateSingleDocument (H := strictHost) "cover" []
                            "cover requires exactly one row"]
                         [] None openEndedPeriod None
                         (RangeError "Invalid time value") quietWorld))
               "2020-03-01" eq_refl eq_refl).
Defined.

(** Three findings of a first tab are lost when the second tab throws. *)
Lemma throwing_tab_witness :
  (buildContext (H := plainHost) (groupBy [numericState "2"]) None
     samplePeriod None laterWorld = (Ok sampleContext, laterWorld) /\
   runsTabs (H := plainHost) (groupBy [numericState "2"]) sampleContext
     [tab3] laterWorld [findingsForRows 2 3] laterWorld /\
   validateDocuments (H := plainHost) "cover" stateRules
     (groupBy [numericState "2"]) sampleContext laterWorld =
     (Throw (TypeError "val.toLowerCase is not a function"), laterWorld)) /\
  validateData (H := plainHost)
    ([tab3] ++ validateDocuments "cover" stateRules :: [tab3])%list
    [numericState "2"] None samplePeriod None laterWorld =
    (Throw (TypeError "val.toLowerCase is not a function"), laterWorld).
Proof.
  assert (R : runsTabs (H := plainHost) (groupBy [numericState "2"])
                sampleContext [tab3] laterWorld [findingsForRows 2 3]
                laterWorld).
  { eapply runs_cons; [reflexivity | apply runs_nil]. }
  split; [split; [reflexivity | split; [exact R | reflexivity]]|].
  exact (validateData_stops_at_throwing_tab (H := plainHost) [tab3]
           (validateDocuments "cover" stateRules) [tab3] [numericState "2"]
           None samplePeriod None laterWorld sampleContext laterWorld
           [findingsForRows 2 3] laterWorld
           (TypeError "val.toLowerCase is not a function") laterWorld
           eq_refl R eq_refl).
Defined.

(** A single cover record taken from row 7 is reported as row 2. *)
Lemma row_two_witness :
  lookup "cover" [("cover", [coverDocument "" "7"])] =
    Some [coverDocument "" "7"] /\
  validateSingleDocument (H := plainHost) "cover" nameRules
    "cover requires exactly one row" [("cover", [coverDocument "" "7"])]
    plainContext quietWorld =
  validateDocuments (H := plainHost) "cover" nameRules
    [("cover", [atRowTwo (coverDocument "" "7")])] plainContext quietWorld /\
  validateSingleDocument (H := plainHost) "cover" nameRules
    "cover requires exactly one row" [("cover", [coverDocument "" "7"])]
    plainContext quietWorld = (Ok [nameFinding "2"], quietWorld).
Proof.
  split; [reflexivity|].
  pose proof (validateSingleDocument_is_validateDocuments_at_row_two
                (H := plainHost) "cover" nameRules
                "cover requires exactly one row"
                [("cover", [coverDocument "" "7"])] (coverDocument "" "7")
                plainContext quietWorld eq_refl) as E.
  split; [exact E|]. rewrite E. reflexivity.
Defined.

Lemma dollar_patterns_witness :
  (hasPlaceholder "Value " = false /\ noDollar "US" = true /\
   noDollar "5" = true) /\
  addValueToMessage "Value {} is not valid ({})" (VStr "US$$5") =
    "Value US$5 is not valid ({})" /\
  addValueToMessage "Value {} is not valid ({})" (VStr "US$&5") =
    "Value US{}5 is not valid ({})" /\
  addValueToMessage "Value {} is not valid ({})" (VStr "US$`5") =
    "Value USValue 5 is not valid ({})" /\
  addValueToMessage "Value {} is not valid ({})" (VStr "US$'5") =
    "Value US is not valid ({})5 is not valid ({})".
Proof.
  split; [repeat split|].
  exact (addValueToMessage_expands_dollar_patterns "Value "
           " is not valid ({})" "US" "5" eq_refl eq_refl eq_refl).
Defined.

Lemma more_tags_witness :
  (tags (contextWithTags (Some ["X"])) = Some ["X"] /\
   tags (contextWithTags (Some ["Y"; "X"])) = Some ["Y"; "X"] /\
   incl ["X"] ["Y"; "X"] /\
   includeValidator (H := plainHost) taggedX (contextWithTags (Some ["X"])) =
     true) /\
  includeValidator (H := plainHost) taggedX
    (contextWithTags (Some ["Y"; "X"])) = true.
Proof.
  assert (I : incl ["X"] ["Y"; "X"]).
  { intros t [<-|[]]. right. now left. }
  split; [split; [reflexivity | split; [reflexivity | split;
    [exact I | reflexivity]]]|].
  exact (includeValidator_monotone_in_context_tags (H := plainHost) taggedX
           (contextWithTags (Some ["X"])) (contextWithTags (Some ["Y"; "X"]))
           ["X"] ["Y"; "X"] eq_refl eq_refl I eq_refl).
Defined.

Lemma interval_witness :
  (reportingPeriod (contextWithEndDate "2020-12-30") =
     Some (mkReportingPeriod "2020-03-01" "2020-12-30" "2020-12-30") /\
   reportingPeriod invertedContext =
     Some (mkReportingPeriod "2020-12-30" "2020-03-01" "2020-12-30")) /\
  dateIsInPeriodOfPerformance (H := plainHost) (VStr "2020-06-01") []
    (contextWithEndDate "2020-12-30") quietWorld = (Ok true, quietWorld) /\
  dateIsInReportingPeriod (H := plainHost) (VStr "2020-06-01") []
    invertedContext quietWorld = (Ok false, quietWorld).
Proof.
  split; [now split|]. split.
  - exact (proj2 (reporting_period_is_an_interval (H := plainHost)
                    (VStr "2020-06-01") [] (contextWithEndDate "2020-12-30")
                    (mkReportingPeriod "2020-03-01" "2020-12-30" "2020-12-30")
                    quietWorld eq_refl)
                 eq_refl eq_refl).
  - exact (proj1 (reporting_period_is_an_interval (H := plainHost)
                    (VStr "2020-06-01") [] invertedContext
                    (mkReportingPeriod "2020-12-30" "2020-03-01" "2020-12-30")
                    quietWorld eq_refl)
                 eq_refl).
Defined.

(** A column of notes between two amount columns changes nothing. *)
Lemma empty_column_witness :
  (ToBoolean (VStr "note") = false \/
   num_truthy (parseFloat (get notedAmounts (ToString (VStr "note")))) =
     false) /\
  isSum (H := plainHost) ([VStr "a"] ++ VStr "note" :: [VStr "b"])%list
    (num "0.3") notedAmounts plainContext quietWorld =
  isSum (H := plainHost) ([VStr "a"] ++ [VStr "b"])%list
    (num "0.3") notedAmounts plainContext quietWorld.
Proof.
  assert (D : ToBoolean (VStr "note") = false \/
              num_truthy
                (parseFloat (get notedAmounts (ToString (VStr "note")))) =
              false) by (right; reflexivity).
  split; [exact D|].
  exact (isSum_ignores_empty_columns (H := plainHost) [VStr "a"]
           (VStr "note") [VStr "b"] (num "0.3") notedAmounts plainContext
           quietWorld D).
Defined.

Lemma same_value_witness :
  get [("total", VStr "12.5")] "total" = VStr "12.5" /\
  isEqual (H := plainHost) "total" (VStr "12.5") [("total", VStr "12.5")]
    plainContext quietWorld = (Ok true, quietWorld) /\
  get [("total", VStr "Infinity")] "total" = VStr "Infinity" /\
  isEqual (H := plainHost) "total" (VStr "Infinity")
    [("total", VStr "Infinity")] plainContext quietWorld =
    (Ok false, quietWorld).
Proof.
  split; [reflexivity|]. split; [|split; [reflexivity|]].
  - apply (proj1 (isEqual_on_the_same_value (H := plainHost) "total"
                    (VStr "12.5") [("total", VStr "12.5")] plainContext
                    quietWorld eq_refl)).
    intros s E. vm_compute in E. discriminate E.
  - apply (proj2 (isEqual_on_the_same_value (H := plainHost) "total"
                    (VStr "Infinity") [("total", VStr "Infinity")]
                    plainContext quietWorld eq_refl)).
    now exists false.
Defined.

(** 50 in the record, 30 and 12.5 in the summaries: the total is 92.5. *)
Lemma numeric_summaries_witness :
  (periodSummaries (contextWithSummaries [summary30; summary12]) =
     Some [summary30; summary12] /\
   neverNaN (num_or (ToNumber (get amountRecord "amount")) (of_Z 0))
     (map (fun s => get s ("current_" ++ "amount"))
          (filter anySummary [summary30; summary12])) = true) /\
  cumulativeAmountIsEqual (H := plainHost) "amount" anySummary (num "92.5")
    amountRecord (contextWithSummaries [summary30; summary12]) quietWorld =
    (Ok true, quietWorld).
Proof.
  split; [split; [reflexivity | vm_compute; reflexivity]|].
  rewrite (proj1 (cumulativeAmountIsEqual_sums_matching_numbers
                    (H := plainHost) "amount" anySummary (num "92.5")
                    amountRecord
                    (contextWithSummaries [summary30; summary12])
                    [summary30; summary12] quietWorld eq_refl
                    ltac:(vm_compute; reflexivity))).
  vm_compute. reflexivity.
Defined.

Lemma nothing_dropped_witness :
  (buildContext (H := plainHost) (groupBy []) None samplePeriod None
     quietWorld = (Ok sampleContext, quietWorld) /\
   runsTabs (H := plainHost) (groupBy []) sampleContext [tab3; tab3]
     quietWorld [findingsForRows 2 3; findingsForRows 2 3] quietWorld /\
   Forall (fun findings : list ValidationItem =>
             (List.length findings <= 100)%nat)
     [findingsForRows 2 3; findingsForRows 2 3]) /\
  validateData (H := plainHost) [tab3; tab3] [] None samplePeriod None
    quietWorld =
    (Ok (List.concat [findingsForRows 2 3; findingsForRows 2 3]), quietWorld).
Proof.
  assert (R : runsTabs (H := plainHost) (groupBy []) sampleContext
                [tab3; tab3] quietWorld
                [findingsForRows 2 3; findingsForRows 2 3] quietWorld).
  { eapply runs_cons; [reflexivity|].
    eapply runs_cons; [reflexivity | apply runs_nil]. }
  assert (F : Forall (fun findings : list ValidationItem =>
                        (List.length findings <= 100)%nat)
                [findingsForRows 2 3; findingsForRows 2 3]).
  { repeat apply Forall_cons; try apply Forall_nil; cbn; lia. }
  split; [split; [reflexivity | split; [exact R | exact F]]|].
  exact (validateData_keeps_everything_up_to_100 (H := plainHost)
           [tab3; tab3] [] None samplePeriod None quietWorld sampleContext
           quietWorld [findingsForRows 2 3; findingsForRows 2 3] quietWorld
           eq_refl R F).
Defined.

(** The five mixed documents: the cover tab sees rows 2, 3 and 4 of its
    own records and reports the two blank names. *)
Example mixed_documents_cover_findings :
  recordsOf "cover" (groupBy mixedDocuments) =
    [coverDocument "" "2"; coverDocument "x" "3"; coverDocument "" "4"] /\
  validateDocuments (H := plainHost) "cover" nameRules
    (groupBy mixedDocuments) plainContext quietWorld =
    (Ok [nameFinding "2"; nameFinding "4"], quietWorld).
Proof. split; reflexivity. Qed.
